(** * Verification of the USB2000+ spectrometer driver (spec.py)

    A shallow embedding of [spec.py]: the command protocol
    ([initialize_spectrometer], [set_integration_time]), the acquisition
    and its byte decoder ([request_spectrum]), the active-pixel slice of
    [main] and the wavelength mapper ([interpret_spectrum]); and also the
    opening of the device ([connect_spectrometer]), the unpacking step of
    [plot_spectrum] and the sequence of steps of [main].

    Python integers are [Z]; Python lists of integers are [list Z]; the
    USB device is an explicit state with a trace of the calls made on it;
    a raised exception is the [Raise] outcome of a computation. *)

From Stdlib Require Import ZArith List Lia Bool.
From Stdlib Require Import Floats.PrimFloat Floats.SpecFloat Floats.FloatOps Floats.FloatAxioms.
Import ListNotations.
Open Scope Z_scope.

(** ** Outcomes: a value, or a raised exception *)

Inductive outcome (A : Type) : Type :=
| Ok (a : A)
| Raise.
Arguments Ok {A} a.
Arguments Raise {A}.

(** ** Python list and integer primitives *)

Module Py.

(** [len(l)] *)
Definition len {A} (l : list A) : Z := Z.of_nat (length l).

(** [l[i]]: a negative index counts from the end, an index outside
    the list raises IndexError. *)
Definition index {A} (l : list A) (i : Z) : outcome A :=
  let j := if i <? 0 then i + len l else i in
  if (j <? 0) || (len l <=? j) then Raise
  else match nth_error l (Z.to_nat j) with
       | Some x => Ok x
       | None => Raise
       end.

(** [range(start, stop, step)] for a positive step: the integers
    start, start+step, ... below stop. *)
Definition range (start stop step : Z) : list Z :=
  map (fun k => start + step * Z.of_nat k)
      (seq 0 (Z.to_nat ((stop - start + step - 1) / step))).

(** One bound of a slice: negative counts from the end, then clamped
    to [0, len]. *)
Definition clamp (n : Z) (i : Z) : Z :=
  let j := if i <? 0 then i + n else i in
  Z.max 0 (Z.min n j).

(** [l[start:stop]]: never raises. *)
Definition slice {A} (l : list A) (start stop : Z) : list A :=
  let lo := clamp (len l) start in
  let hi := clamp (len l) stop in
  firstn (Z.to_nat (hi - lo)) (skipn (Z.to_nat lo) l).

End Py.

(** ** The error monad of pure Python code *)

Definition obind {A B} (m : outcome A) (k : A -> outcome B) : outcome B :=
  match m with
  | Ok a => k a
  | Raise => Raise
  end.

(** ** The pixel decoder (spec.py, lines 53-60)

    [pixels = []; for i in range(0, len(data), 2): if i+1 < len(data):
    pixels.append(data[i] | (data[i+1] << 8))] *)

Definition decode_step (data : list Z) (acc : outcome (list Z)) (i : Z)
  : outcome (list Z) :=
  obind acc (fun pixels =>
    if i + 1 <? Py.len data then
      obind (Py.index data i) (fun lo =>
      obind (Py.index data (i + 1)) (fun hi =>
        let pixel_value := Z.lor lo (Z.shiftl hi 8) in
        Ok (pixels ++ [pixel_value])))
    else Ok pixels).

Definition decode_pixels (data : list Z) : outcome (list Z) :=
  fold_left (decode_step data) (Py.range 0 (Py.len data) 2) (Ok []).

(** The decoder as a recursion on the buffer, two bytes at a time. *)
Fixpoint pairs (data : list Z) : list Z :=
  match data with
  | lo :: hi :: rest => Z.lor lo (Z.shiftl hi 8) :: pairs rest
  | _ => []
  end.

(** ** The USB device

    The device is what [usb.core] hands back: the program writes to an
    output endpoint, reads from an input endpoint and sleeps.  Each call
    is recorded in [trace].  What the hardware answers is not decided by
    the program: [write_ok n] says whether the n-th write succeeds and
    [read_reply n] is the packet returned by the n-th read, or [Raise]
    when that read fails (timeout, stall, unplugged device). *)

Inductive event : Type :=
| EvWrite (endpoint : Z) (data : list Z)
| EvRead (endpoint : Z) (size : Z)
| EvSleep (millis : Z).

Record Device : Type := mkDevice {
  write_ok : nat -> bool;
  read_reply : nat -> outcome (list Z);
  n_writes : nat;
  n_reads : nat;
  trace : list event
}.

(** Computations on the device that may raise. *)
Definition M (A : Type) : Type := Device -> outcome A * Device.

Definition ret {A} (a : A) : M A := fun d => (Ok a, d).

Definition bind {A B} (m : M A) (k : A -> M B) : M B :=
  fun d => match m d with
           | (Ok a, d') => k a d'
           | (Raise, d') => (Raise, d')
           end.

Definition lift {A} (o : outcome A) : M A := fun d => (o, d).

Notation "x <- m ;; k" := (bind m (fun x => k))
  (at level 61, m at next level, right associativity).
Notation "m ;; k" := (bind m (fun _ => k))
  (at level 61, right associativity).

(** [device.write(endpoint, data)] *)
Definition dev_write (endpoint : Z) (data : list Z) : M unit :=
  fun d =>
    (if write_ok d (n_writes d) then Ok tt else Raise,
     mkDevice (write_ok d) (read_reply d) (S (n_writes d)) (n_reads d)
              (trace d ++ [EvWrite endpoint data])).

(** [device.read(endpoint, size)] *)
Definition dev_read (endpoint : Z) (size : Z) : M (list Z) :=
  fun d =>
    (read_reply d (n_reads d),
     mkDevice (write_ok d) (read_reply d) (n_writes d) (S (n_reads d))
              (trace d ++ [EvRead endpoint size])).

(** [time.sleep(s)], the duration kept in milliseconds: [time.sleep(0.1)]
    is [sleep 100]. *)
Definition sleep (millis : Z) : M unit :=
  fun d =>
    (Ok tt,
     mkDevice (write_ok d) (read_reply d) (n_writes d) (n_reads d)
              (trace d ++ [EvSleep millis])).

(** ** The command protocol (spec.py, lines 23-37) *)

Definition initialize_spectrometer : M unit :=
  dev_write 0x01 [0x01] ;;
  sleep 100.

(** The command list built by [set_integration_time]. *)
Definition integration_command (time_ms : Z) : list Z :=
  let time_us := time_ms * 1000 in
  let command := [0x02] in
  command ++ [Z.land time_us 0xFF;
              Z.land (Z.shiftr time_us 8) 0xFF;
              Z.land (Z.shiftr time_us 16) 0xFF;
              Z.land (Z.shiftr time_us 24) 0xFF].

Definition set_integration_time (time_ms : Z) : M unit :=
  dev_write 0x01 (integration_command time_ms) ;;
  sleep 100.

(** ** Acquisition (spec.py, lines 39-60) *)

(** The read loop, lines 45-51: one iteration per element of
    [range(8)]; a read that raises is caught and leaves the loop. *)
Fixpoint read_loop (iters : list Z) (data : list Z) : M (list Z) :=
  match iters with
  | [] => ret data
  | _ :: rest =>
      fun d => match dev_read 0x82 512 d with
               | (Ok packet, d') => read_loop rest (data ++ packet) d'
               | (Raise, d') => (Ok data, d')
               end
  end.

Definition read_spectrum_data : M (list Z) :=
  read_loop (Py.range 0 8 1) [].

Definition request_spectrum : M (list Z) :=
  dev_write 0x01 [0x09] ;;
  sleep 100 ;;
  data <- read_spectrum_data ;;
  lift (decode_pixels data).

(** ** The acquisition sequence of [main] (spec.py, lines 127-137) *)

Definition main_acquire : M (list Z) :=
  initialize_spectrometer ;;
  set_integration_time 100 ;;
  spectrum <- request_spectrum ;;
  let active_pixels := Py.slice spectrum 20 2048 in
  ret active_pixels.

(** ** The wavelength mapper (spec.py, lines 62-83)

    [numpy.linspace] is a library function, outside the program.  It is
    a parameter here, with the one fact about it that the mapper relies
    on: asked for [num >= 0] samples it returns an array of [num]
    values (and it raises on a negative [num]). *)

Section Mapper.

Variable F : Type.
Variable linspace : F -> F -> Z -> outcome (list F).

Definition interpret_spectrum (active_pixels : list Z)
           (start_wavelength end_wavelength : F)
  : outcome (list (F * Z)) :=
  let num_pixels := Py.len active_pixels in
  obind (linspace start_wavelength end_wavelength num_pixels)
        (fun wavelengths =>
           let spectrum_data := combine wavelengths active_pixels in
           Ok spectrum_data).

End Mapper.

(** [numpy.linspace(start, stop, num)] on IEEE doubles, with the default
    [endpoint=True] and scalar bounds, step by step as numpy computes it:
    [num < 0] raises; [div = num - 1]; [delta = stop - start];
    [y = arange(0, num)]; when [div > 0], [step = delta / div] and
    [y = y * step], or [y = (y / div) * delta] when [step == 0]; when
    [div <= 0], [y = y * delta]; then [y = y + start]; and for
    [num > 1] the last sample is overwritten with [stop]. *)

(** The conversion of a non-negative integer to a double, exact below
    2^53. *)
Fixpoint float_of_nat (n : nat) : float :=
  match n with
  | O => PrimFloat.zero
  | S k => PrimFloat.add (float_of_nat k) PrimFloat.one
  end.

(** [y[-1] = x] on a non-empty array. *)
Definition set_last {A} (y : list A) (x : A) : list A :=
  match y with
  | [] => []
  | _ :: _ => removelast y ++ [x]
  end.

Definition linspace_f64 (start stop : float) (num : Z) : outcome (list float) :=
  if num <? 0 then Raise
  else
    let div := num - 1 in
    let delta := PrimFloat.sub stop start in
    let y := map float_of_nat (seq 0 (Z.to_nat num)) in
    let y :=
      if 0 <? div then
        let fdiv := float_of_nat (Z.to_nat div) in
        let step := PrimFloat.div delta fdiv in
        if PrimFloat.eqb step PrimFloat.zero
        then map (fun v => PrimFloat.mul (PrimFloat.div v fdiv) delta) y
        else map (fun v => PrimFloat.mul v step) y
      else map (fun v => PrimFloat.mul v delta) y in
    let y := map (fun v => PrimFloat.add v start) y in
    Ok (if 1 <? num then set_last y stop else y).




(** ** Reference notions used in the statements *)

(** The little-endian 4-byte encoding of a 32-bit quantity, as the
    protocol describes it: byte [i] is digit [i] of the value in base
    256.  (On a negative value these are the digits of its two's
    complement.) *)
Definition le_bytes32 (v : Z) : list Z :=
  [v mod 256; (v / 2 ^ 8) mod 256; (v / 2 ^ 16) mod 256; (v / 2 ^ 24) mod 256].

(** The unsigned value that a little-endian byte string denotes. *)
Definition le_value (bs : list Z) : Z :=
  fold_right (fun b acc => b + 256 * acc) 0 bs.

Definition is_byte (b : Z) : Prop := 0 <= b < 256.

(** The sleeps and the writes of a trace, in order. *)
Definition sleeps (t : list event) : list Z :=
  flat_map (fun e => match e with EvSleep ms => [ms] | _ => [] end) t.

Definition writes (t : list event) : list (Z * list Z) :=
  flat_map (fun e => match e with EvWrite ep data => [(ep, data)] | _ => [] end) t.

(** The events a computation adds to the trace of the device. *)
Definition emitted {A} (m : M A) (d : Device) : list event :=
  skipn (length (trace d)) (trace (snd (m d))).

(** The packets delivered by the reads number [k], [k+1], ... of a
    device, up to the first failure and at most [n] of them; and the
    number of reads that takes. *)
Fixpoint received (reply : nat -> outcome (list Z)) (k n : nat) : list (list Z) :=
  match n with
  | O => []
  | S n' => match reply k with
            | Ok packet => packet :: received reply (S k) n'
            | Raise => []
            end
  end.

Fixpoint attempts (reply : nat -> outcome (list Z)) (k n : nat) : nat :=
  match n with
  | O => O
  | S n' => match reply k with
            | Ok _ => S (attempts reply (S k) n')
            | Raise => 1%nat
            end
  end.

(** The device after [c] more reads of 512 bytes on endpoint 0x82. *)
Definition after_reads (d : Device) (c : nat) : Device :=
  mkDevice (write_ok d) (read_reply d) (n_writes d) (n_reads d + c)
           (trace d ++ repeat (EvRead 0x82 512) c).

(** A device that accepts every write and answers the first [good]
    reads with the same six bytes, then fails. *)
Definition sample_packet : list Z := [0x01; 0x00; 0xFF; 0x00; 0x00; 0x01].

Definition sample_device (good : nat) : Device :=
  mkDevice (fun _ => true)
           (fun n => if (n <? good)%nat then Ok sample_packet else Raise)
           0 0 [].

(** ** Plotting (spec.py, lines 100-115)

    [wavelengths, intensities = zip( *spectrum_data)]: the rows are the
    2-tuples built by [interpret_spectrum].  [zip] of no argument yields
    nothing; [zip] of n >= 1 rows of two components yields two tuples,
    the first components and the second components.  Unpacking into two
    names raises ValueError unless exactly two values come out.  The
    calls on [matplotlib] that follow take these two series; the series
    are the result here. *)

Inductive column (F : Type) : Type :=
| ColFloat (values : list F)
| ColInt (values : list Z).
Arguments ColFloat {F} values.
Arguments ColInt {F} values.

Definition zip_star {F} (rows : list (F * Z)) : list (column F) :=
  match rows with
  | [] => []
  | _ :: _ => [ColFloat (map fst rows); ColInt (map snd rows)]
  end.

Definition unpack2 {A} (values : list A) : outcome (A * A) :=
  match values with
  | [a; b] => Ok (a, b)
  | _ => Raise
  end.

Definition plot_spectrum {F} (spectrum_data : list (F * Z))
  : outcome (column F * column F) :=
  obind (unpack2 (zip_star spectrum_data)) (fun series =>
    let '(wavelengths, intensities) := series in
    Ok (wavelengths, intensities)).

(** ** The processing steps of [main] (spec.py, lines 137-148): the
    active-pixel slice, the mapper and the plot; the console output in
    between is left out. *)

Definition main_process (F : Type) (linspace : F -> F -> Z -> outcome (list F))
           (start_wavelength end_wavelength : F) (spectrum : list Z)
  : outcome (column F * column F) :=
  let active_pixels := Py.slice spectrum 20 2048 in
  obind (interpret_spectrum F linspace active_pixels
                            start_wavelength end_wavelength)
        (fun spectrum => plot_spectrum spectrum).

(** The device part and the processing part of [main] in sequence
    (spec.py, lines 127-148). *)
Definition main_body (F : Type) (linspace : F -> F -> Z -> outcome (list F))
           (start_wavelength end_wavelength : F)
  : M (column F * column F) :=
  initialize_spectrometer ;;
  set_integration_time 100 ;;
  spectrum <- request_spectrum ;;
  lift (main_process F linspace start_wavelength end_wavelength spectrum).

(** ** Opening the device (spec.py, lines 7-21)

    The bus is what [usb.core.find] enumerates.  The enumeration
    itself may raise before any device is touched (no backend
    available, no access to the bus): the bus is then [Raise].
    Otherwise it is the list of attached USB devices, and
    [usb.core.find] returns the first one with the requested
    identifiers, or None.  What the host answers to the three calls made
    on the device found is part of the device's description; the calls
    made are collected in order. *)

Record UsbDevice : Type := mkUsbDevice {
  idVendor : Z;
  idProduct : Z;
  driver_active : outcome bool;
  detach_ok : bool;
  configure_ok : bool
}.

Inductive host_call : Type :=
| IsKernelDriverActive (interface : Z)
| DetachKernelDriver (interface : Z)
| SetConfiguration.

(** Host computations: an outcome and the calls made. *)
Definition Host (A : Type) : Type := outcome A * list host_call.

Definition hret {A} (a : A) : Host A := (Ok a, []).

Definition hbind {A B} (m : Host A) (k : A -> Host B) : Host B :=
  match m with
  | (Ok a, calls) => let '(r, calls') := k a in (r, calls ++ calls')
  | (Raise, calls) => (Raise, calls)
  end.

Definition hcall {A} (c : host_call) (answer : outcome A) : Host A := (answer, [c]).

Definition UsbBus : Type := outcome (list UsbDevice).

Definition usb_core_find (bus : UsbBus) (vendor product : Z)
  : outcome (option UsbDevice) :=
  obind bus (fun devices =>
    Ok (find (fun dev => (idVendor dev =? vendor) && (idProduct dev =? product))
             devices)).

Definition is_kernel_driver_active (device : UsbDevice) (interface : Z) : Host bool :=
  hcall (IsKernelDriverActive interface) (driver_active device).

Definition detach_kernel_driver (device : UsbDevice) (interface : Z) : Host unit :=
  hcall (DetachKernelDriver interface)
        (if detach_ok device then Ok tt else Raise).

Definition set_configuration (device : UsbDevice) : Host unit :=
  hcall SetConfiguration (if configure_ok device then Ok tt else Raise).

Definition connect_spectrometer (bus : UsbBus) : Host UsbDevice :=
  match usb_core_find bus 0x2457 0x101E with
  | Raise => (Raise, [])
  | Ok None => (Raise, [])
  | Ok (Some device) =>
      hbind (is_kernel_driver_active device 0) (fun active =>
      hbind (if active then detach_kernel_driver device 0 else hret tt) (fun _ =>
      hbind (set_configuration device) (fun _ =>
      hret device)))
  end.

(** ** Further reference notions *)

(** A 16-bit pixel value, and its two bytes, low byte first. *)
Definition is_pixel (p : Z) : Prop := 0 <= p < 65536.

Definition pixel_bytes (p : Z) : list Z := [Z.land p 0xFF; Z.shiftr p 8].

Definition encode_pixels (pixels : list Z) : list Z := flat_map pixel_bytes pixels.

(** The six command events of a complete run, in order. *)
Definition command_events : list event :=
  [EvWrite 0x01 [0x01]; EvSleep 100;
   EvWrite 0x01 [0x02; 0xA0; 0x86; 0x01; 0x00]; EvSleep 100;
   EvWrite 0x01 [0x09]; EvSleep 100].

(** A device that accepts every write and answers every read with a
    full packet of 512 bytes. *)
Definition full_device : Device :=
  mkDevice (fun _ => true) (fun _ => Ok (repeat 0xAB 512)) 0 0 [].

(** A device whose write number [k] is refused. *)
Definition refusing_device (k : nat) : Device :=
  mkDevice (fun n => negb (n =? k)%nat) (fun _ => Ok sample_packet) 0 0 [].

(** * Properties *)

Example linspace_f64_3 :
  linspace_f64 400%float 700%float 3 = Ok [400%float; 550%float; 700%float].
Proof. vm_compute. reflexivity. Qed.

(** ** Lists and Python indexing *)

Lemma len_nonneg {A} (l : list A) : 0 <= Py.len l.
Proof. unfold Py.len. lia. Qed.

Lemma len_app {A} (l1 l2 : list A) : Py.len (l1 ++ l2) = Py.len l1 + Py.len l2.
Proof. unfold Py.len. rewrite length_app. lia. Qed.

Lemma index_in_range {A} (l : list A) (i : Z) (x : A) :
  0 <= i -> nth_error l (Z.to_nat i) = Some x -> Py.index l i = Ok x.
Proof.
  intros Hi Hn. unfold Py.index.
  assert (Hlt : (Z.to_nat i < length l)%nat)
    by (apply nth_error_Some; congruence).
  assert (H0 : (i <? 0) = false) by (apply Z.ltb_ge; lia).
  assert (H1 : (Py.len l <=? i) = false)
    by (apply Z.leb_gt; unfold Py.len; lia).
  cbv zeta. rewrite H0, H0, H1. cbn [orb]. rewrite Hn. reflexivity.
Qed.

Lemma skipn_cons_nth {A} (l : list A) : forall (n : nat) (x : A),
  nth_error l n = Some x -> skipn n l = x :: skipn (S n) l.
Proof.
  induction l as [|a l IH]; intros [|n] x H; simpl in *; try discriminate.
  - congruence.
  - apply IH. exact H.
Qed.

(** ** The decoder loop computes [pairs] *)

Lemma pairs_short (l : list Z) : (length l <= 1)%nat -> pairs l = [].
Proof.
  destruct l as [|a [|b l]]; simpl; intros H; try reflexivity. lia.
Qed.

(** Induction two elements at a time. *)
Lemma list_ind2 {A} (P : list A -> Prop) :
  P [] -> (forall a, P [a]) -> (forall a b l, P l -> P (a :: b :: l)) ->
  forall l, P l.
Proof.
  intros H0 H1 H2.
  fix IH 1. intros [|a [|b l]].
  - exact H0.
  - apply H1.
  - apply H2. apply IH.
Qed.

Lemma decode_fold (data : list Z) : forall (m k : nat) (acc : list Z),
  (length data <= 2 * (k + m))%nat ->
  fold_left (decode_step data)
            (map (fun j => 0 + 2 * Z.of_nat j) (seq k m)) (Ok acc)
  = Ok (acc ++ pairs (skipn (2 * k) data)).
Proof.
  induction m as [|m IH]; intros k acc Hlen.
  - simpl. rewrite skipn_all2 by lia. simpl. rewrite app_nil_r. reflexivity.
  - cbn [seq map fold_left]. unfold decode_step at 2. cbn [obind].
    destruct (0 + 2 * Z.of_nat k + 1 <? Py.len data) eqn:Hguard.
    + apply Z.ltb_lt in Hguard. unfold Py.len in Hguard.
      destruct (nth_error data (2 * k)) as [lo|] eqn:Hlo;
        [| apply nth_error_None in Hlo; lia].
      destruct (nth_error data (S (2 * k))) as [hi|] eqn:Hhi;
        [| apply nth_error_None in Hhi; lia].
      rewrite (index_in_range data (0 + 2 * Z.of_nat k) lo);
        [| lia | replace (Z.to_nat (0 + 2 * Z.of_nat k)) with (2 * k)%nat by lia;
                 exact Hlo ].
      rewrite (index_in_range data (0 + 2 * Z.of_nat k + 1) hi);
        [| lia | replace (Z.to_nat (0 + 2 * Z.of_nat k + 1)) with (S (2 * k)) by lia;
                 exact Hhi ].
      cbn [obind]. rewrite IH by lia.
      rewrite (skipn_cons_nth _ _ _ Hlo), (skipn_cons_nth _ _ _ Hhi).
      cbn [pairs]. replace (2 * S k)%nat with (S (S (2 * k))) by lia.
      rewrite <- app_assoc. reflexivity.
    + apply Z.ltb_ge in Hguard. unfold Py.len in Hguard.
      rewrite IH by lia.
      rewrite (pairs_short (skipn (2 * k) data))
        by (rewrite length_skipn; lia).
      rewrite (pairs_short (skipn (2 * S k) data))
        by (rewrite length_skipn; lia).
      reflexivity.
Qed.

Lemma decode_pixels_pairs (data : list Z) : decode_pixels data = Ok (pairs data).
Proof.
  unfold decode_pixels, Py.range.
  rewrite decode_fold.
  - reflexivity.
  - unfold Py.len.
    assert (H : (Z.of_nat (length data) - 0 + 2 - 1) / 2 * 2
                >= Z.of_nat (length data) - 0 + 2 - 1 - 1).
    { pose proof (Z.mod_pos_bound (Z.of_nat (length data) - 0 + 2 - 1) 2 ltac:(lia)).
      pose proof (Z.div_mod (Z.of_nat (length data) - 0 + 2 - 1) 2 ltac:(lia)).
      lia. }
    assert (0 <= (Z.of_nat (length data) - 0 + 2 - 1) / 2)
      by (apply Z.div_pos; lia).
    lia.
Qed.

Lemma pairs_len (data : list Z) : Py.len (pairs data) = Py.len data / 2.
Proof.
  induction data as [| a | a b l IH] using list_ind2; try reflexivity.
  unfold Py.len in *. cbn [pairs length].
  replace (Z.of_nat (S (S (length l)))) with (Z.of_nat (length l) + 1 * 2) by lia.
  rewrite Z.div_add by lia. lia.
Qed.

Lemma pairs_nth (data : list Z) : forall i : nat,
  (2 * i + 1 < length data)%nat ->
  exists lo hi,
    nth_error data (2 * i) = Some lo /\
    nth_error data (2 * i + 1) = Some hi /\
    nth_error (pairs data) i = Some (Z.lor lo (Z.shiftl hi 8)).
Proof.
  induction data as [| a | a b l IH] using list_ind2; intros i Hi;
    cbn [length] in Hi; try lia.
  destruct i as [|i].
  - exists a, b. repeat split.
  - destruct (IH i ltac:(lia)) as (lo & hi & Hlo & Hhi & Hp).
    exists lo, hi.
    replace (2 * S i)%nat with (S (S (2 * i))) by lia.
    replace (S (S (2 * i)) + 1)%nat with (S (S (2 * i + 1))) by lia.
    cbn [nth_error pairs]. auto.
Qed.

Lemma pairs_odd (data : list Z) (b : Z) :
  Z.even (Py.len data) = true -> pairs (data ++ [b]) = pairs data.
Proof.
  induction data as [| a | a c l IH] using list_ind2; intros He.
  - reflexivity.
  - discriminate.
  - cbn [app pairs]. f_equal. apply IH.
    unfold Py.len in *. cbn [length] in He.
    rewrite !Nat2Z.inj_succ in He. rewrite <- Z.add_1_r in He.
    rewrite <- Z.add_1_r in He.
    replace (Z.of_nat (length l) + 1 + 1) with (Z.of_nat (length l) + 2 * 1) in He by lia.
    rewrite Z.even_add_mul_2 in He. exact He.
Qed.

(** C1. Decoder correctness: the decoding step of [request_spectrum]
    never raises and produces exactly floor(len/2) pixel values; pixel
    [i] is [data[2i] | (data[2i+1] << 8)]; an unpaired last byte adds no
    value; and [[0x01,0x00,0xFF,0x00,0x00,0x01]] decodes to
    [[1,255,256]]. *)
Theorem decode_pixels_correct :
  (forall data : list Z,
     exists pixels,
       decode_pixels data = Ok pixels /\
       Py.len pixels = Py.len data / 2 /\
       (forall i, 0 <= i < Py.len data / 2 ->
          exists lo hi,
            Py.index data (2 * i) = Ok lo /\
            Py.index data (2 * i + 1) = Ok hi /\
            Py.index pixels i = Ok (Z.lor lo (Z.shiftl hi 8))) /\
       (forall b, Z.even (Py.len data) = true ->
          decode_pixels (data ++ [b]) = Ok pixels)) /\
  decode_pixels [0x01; 0x00; 0xFF; 0x00; 0x00; 0x01] = Ok [1; 255; 256].
Proof.
  split; [| reflexivity].
  intros data. exists (pairs data).
  split; [apply decode_pixels_pairs |].
  split; [apply pairs_len |].
  split.
  - intros i Hi.
    assert (Hlt : (2 * Z.to_nat i + 1 < length data)%nat).
    { unfold Py.len in Hi.
      pose proof (Z.mul_div_le (Z.of_nat (length data)) 2 ltac:(lia)). lia. }
    destruct (pairs_nth data (Z.to_nat i) Hlt) as (lo & hi & Hlo & Hhi & Hp).
    exists lo, hi. repeat split.
    + apply index_in_range; [lia |].
      replace (Z.to_nat (2 * i)) with (2 * Z.to_nat i)%nat by lia. exact Hlo.
    + apply index_in_range; [lia |].
      replace (Z.to_nat (2 * i + 1)) with (2 * Z.to_nat i + 1)%nat by lia.
      exact Hhi.
    + apply index_in_range; [lia | exact Hp].
  - intros b He. rewrite decode_pixels_pairs, pairs_odd by exact He.
    reflexivity.
Qed.

(** ** The active-pixel slice *)

Lemma slice_20_2048 {A} (l : list A) :
  Py.slice l 20 2048
  = firstn (Z.to_nat (Z.min (Py.len l) 2048 - Z.min (Py.len l) 20))
           (skipn (Z.to_nat (Z.min (Py.len l) 20)) l).
Proof.
  unfold Py.slice, Py.clamp. cbn [Z.ltb Z.compare].
  pose proof (len_nonneg l).
  rewrite !Z.max_r by lia. reflexivity.
Qed.

(** C8. Active-pixel slice safety: [spectrum[20:2048]] is defined for a
    list of any length L (it is a total function, there is no bounds
    error), it has max(0, min(L,2048) - 20) elements, its element [i] is
    element [20 + i] of the decoded list, and it is shorter than 2028
    whenever L < 2048. *)
Theorem active_pixels_slice (spectrum : list Z) :
  let L := Py.len spectrum in
  let active_pixels := Py.slice spectrum 20 2048 in
  Py.len active_pixels = Z.max 0 (Z.min L 2048 - 20) /\
  (forall i, 0 <= i < Py.len active_pixels ->
     exists x, Py.index active_pixels i = Ok x /\
               Py.index spectrum (20 + i) = Ok x) /\
  (forall i x, Py.index spectrum i = Ok x -> 20 <= i < 2048 ->
     Py.index active_pixels (i - 20) = Ok x) /\
  (L < 2048 -> Py.len active_pixels < 2028).
Proof.
  cbv zeta.
  assert (Hlen : Py.len (Py.slice spectrum 20 2048)
                 = Z.max 0 (Z.min (Py.len spectrum) 2048 - 20)).
  { rewrite slice_20_2048. unfold Py.len.
    rewrite length_firstn, length_skipn. lia. }
  assert (Hnth : forall i : nat,
             (Z.of_nat i < Z.max 0 (Z.min (Py.len spectrum) 2048 - 20)) ->
             nth_error (Py.slice spectrum 20 2048) i
             = nth_error spectrum (20 + i)).
  { intros i Hi. rewrite slice_20_2048, nth_error_firstn, nth_error_skipn.
    unfold Py.len in *.
    replace (i <? _)%nat with true by (symmetry; apply Nat.ltb_lt; lia).
    f_equal. lia. }
  split; [exact Hlen |]. split; [| split].
  - intros i Hi. rewrite Hlen in Hi.
    destruct (nth_error spectrum (20 + Z.to_nat i)) as [x|] eqn:Hx.
    + exists x. split; apply index_in_range; try lia.
      * rewrite Hnth by lia. exact Hx.
      * replace (Z.to_nat (20 + i)) with (20 + Z.to_nat i)%nat by lia. exact Hx.
    + apply nth_error_None in Hx. unfold Py.len in Hi. lia.
  - intros i x Hix Hi. unfold Py.index in Hix. cbv zeta in Hix.
    assert (H0 : (i <? 0) = false) by (apply Z.ltb_ge; lia).
    rewrite !H0 in Hix. cbn [orb] in Hix. revert Hix.
    destruct (Py.len spectrum <=? i) eqn:Hb; [discriminate |].
    apply Z.leb_gt in Hb.
    destruct (nth_error spectrum (Z.to_nat i)) as [y|] eqn:Hy; [| discriminate].
    intros Hix. injection Hix as ->.
    apply index_in_range; [lia |].
    rewrite Hnth by lia.
    replace (20 + Z.to_nat (i - 20))%nat with (Z.to_nat i) by lia. exact Hy.
  - intros HL. rewrite Hlen. lia.
Qed.

(** ** The integration-time command *)

Lemma land_255 (a : Z) : Z.land a 0xFF = a mod 256.
Proof. change 0xFF with (Z.ones 8). rewrite Z.land_ones by lia. reflexivity. Qed.

Lemma integration_command_le (time_ms : Z) :
  integration_command time_ms = 0x02 :: le_bytes32 (time_ms * 1000).
Proof.
  unfold integration_command, le_bytes32. cbn [app].
  rewrite !land_255, !Z.shiftr_div_pow2 by lia. reflexivity.
Qed.

Lemma le_bytes32_mod (v : Z) : le_bytes32 (v mod 2 ^ 32) = le_bytes32 v.
Proof.
  unfold le_bytes32.
  pose proof (Z.div_mod v (2 ^ 32) ltac:(lia)) as Hv.
  set (q := v / 2 ^ 32) in *. set (r := v mod 2 ^ 32) in *.
  rewrite Hv.
  replace (2 ^ 32 * q + r) with (r + (q * 2 ^ 24) * 256) at 1 by lia.
  rewrite Z.mod_add by lia.
  replace (2 ^ 32 * q + r) with (r + (q * 2 ^ 24) * 2 ^ 8) at 1 by lia.
  rewrite Z.div_add by lia.
  replace (r / 2 ^ 8 + q * 2 ^ 24) with (r / 2 ^ 8 + (q * 2 ^ 16) * 256) by lia.
  rewrite Z.mod_add by lia.
  replace (2 ^ 32 * q + r) with (r + (q * 2 ^ 16) * 2 ^ 16) at 1 by lia.
  rewrite Z.div_add by lia.
  replace (r / 2 ^ 16 + q * 2 ^ 16) with (r / 2 ^ 16 + (q * 2 ^ 8) * 256) by lia.
  rewrite Z.mod_add by lia.
  replace (2 ^ 32 * q + r) with (r + (q * 2 ^ 8) * 2 ^ 24) at 1 by lia.
  rewrite Z.div_add by lia.
  replace (r / 2 ^ 24 + q * 2 ^ 8) with (r / 2 ^ 24 + q * 256) by lia.
  rewrite Z.mod_add by lia.
  reflexivity.
Qed.

Lemma le_bytes32_bytes (v : Z) : Forall is_byte (le_bytes32 v).
Proof.
  unfold le_bytes32, is_byte.
  repeat constructor; apply Z.mod_pos_bound; lia.
Qed.

Lemma le_value_bytes32 (v : Z) :
  0 <= v < 2 ^ 32 -> le_value (le_bytes32 v) = v.
Proof.
  intros Hv. unfold le_value, le_bytes32. cbn [fold_right].
  change (2 ^ 8) with 256. change (2 ^ 16) with (256 * 256).
  change (2 ^ 24) with (256 * 256 * 256).
  change (2 ^ 32) with (256 * 256 * 256 * 256) in Hv.
  rewrite <- !Z.div_div by lia.
  set (q1 := v / 256). set (q2 := q1 / 256). set (q3 := q2 / 256).
  pose proof (Z.div_mod v 256 ltac:(lia)).
  pose proof (Z.div_mod q1 256 ltac:(lia)).
  pose proof (Z.div_mod q2 256 ltac:(lia)).
  assert (0 <= q3 < 256).
  { unfold q3, q2, q1. split.
    - repeat apply Z.div_pos; lia.
    - repeat (apply Z.div_lt_upper_bound; [lia |]). lia. }
  rewrite (Z.mod_small q3) by lia.
  fold q1 in H. fold q2 in H0. fold q3 in H1. lia.
Qed.

Lemma le_value_wrap (v : Z) : le_value (le_bytes32 v) = v mod 2 ^ 32.
Proof.
  rewrite <- le_bytes32_mod. apply le_value_bytes32.
  apply Z.mod_pos_bound. lia.
Qed.

(** What one call of [set_integration_time] does on the device. *)
Lemma set_integration_time_run (time_ms : Z) (d : Device) :
  fst (set_integration_time time_ms d)
  = (if write_ok d (n_writes d) then Ok tt else Raise) /\
  trace (snd (set_integration_time time_ms d))
  = trace d ++ EvWrite 0x01 (0x02 :: le_bytes32 (time_ms * 1000))
            :: (if write_ok d (n_writes d) then [EvSleep 100] else []).
Proof.
  unfold set_integration_time, bind, dev_write, sleep.
  rewrite integration_command_le.
  destruct (write_ok d (n_writes d)); cbn [fst snd trace].
  - rewrite <- app_assoc. auto.
  - auto.
Qed.

(** C5. Integration-time command encoding: when time_ms * 1000 is below
    2^32, [set_integration_time] makes exactly one write, to endpoint
    0x01, of the packet [0x02, b0, b1, b2, b3], where b0..b3 are bytes,
    the little-endian encoding of time_us = time_ms * 1000 (they denote
    time_us itself when it is not negative); for time_ms = 100 the
    payload is [0xA0, 0x86, 0x01, 0x00]. *)
Theorem set_integration_time_packet (time_ms : Z) (d : Device) :
  time_ms * 1000 < 2 ^ 32 ->
  exists b0 b1 b2 b3,
    writes (emitted (set_integration_time time_ms) d)
    = [(0x01, [0x02; b0; b1; b2; b3])] /\
    [b0; b1; b2; b3] = le_bytes32 (time_ms * 1000) /\
    Forall is_byte [b0; b1; b2; b3] /\
    (0 <= time_ms -> le_value [b0; b1; b2; b3] = time_ms * 1000) /\
    (time_ms = 100 -> [b0; b1; b2; b3] = [0xA0; 0x86; 0x01; 0x00]).
Proof.
  intros Hlt.
  exists ((time_ms * 1000) mod 256), ((time_ms * 1000 / 2 ^ 8) mod 256),
         ((time_ms * 1000 / 2 ^ 16) mod 256), ((time_ms * 1000 / 2 ^ 24) mod 256).
  fold (le_bytes32 (time_ms * 1000)).
  split; [| split; [reflexivity | split; [apply le_bytes32_bytes | split]]].
  - unfold emitted.
    rewrite (proj2 (set_integration_time_run time_ms d)).
    rewrite skipn_app, Nat.sub_diag, skipn_all. cbn [app skipn].
    destruct (write_ok d (n_writes d)); reflexivity.
  - intros Hpos. apply le_value_bytes32. lia.
  - intros ->. reflexivity.
Qed.

Lemma set_integration_time_packet_witness :
  100 * 1000 < 2 ^ 32 /\
  exists b0 b1 b2 b3,
    writes (emitted (set_integration_time 100) (sample_device 8))
    = [(0x01, [0x02; b0; b1; b2; b3])] /\
    [b0; b1; b2; b3] = le_bytes32 (100 * 1000) /\
    Forall is_byte [b0; b1; b2; b3] /\
    (0 <= 100 -> le_value [b0; b1; b2; b3] = 100 * 1000) /\
    (100 = 100 -> [b0; b1; b2; b3] = [0xA0; 0x86; 0x01; 0x00]).
Proof.
  split; [lia |].
  apply (set_integration_time_packet 100 (sample_device 8)). lia.
Defined.

(** C6. Integration-time overflow is silent: for a nonnegative time_ms
    with time_ms * 1000 >= 2^32 nothing is validated: the call raises
    only if the USB write itself does, and the write carries a 5-byte
    packet whose payload is the little-endian encoding of
    (time_ms * 1000) mod 2^32, which is no longer time_ms * 1000. *)
Theorem set_integration_time_overflow (time_ms : Z) (d : Device) :
  0 <= time_ms -> 2 ^ 32 <= time_ms * 1000 ->
  let payload := le_bytes32 ((time_ms * 1000) mod 2 ^ 32) in
  fst (set_integration_time time_ms d)
  = (if write_ok d (n_writes d) then Ok tt else Raise) /\
  writes (emitted (set_integration_time time_ms) d) = [(0x01, 0x02 :: payload)] /\
  length (0x02 :: payload) = 5%nat /\
  Forall is_byte payload /\
  le_value payload = (time_ms * 1000) mod 2 ^ 32 /\
  le_value payload <> time_ms * 1000.
Proof.
  intros Hpos Hbig. cbv zeta.
  rewrite le_bytes32_mod.
  split; [apply set_integration_time_run |].
  split.
  { unfold emitted.
    rewrite (proj2 (set_integration_time_run time_ms d)).
    rewrite skipn_app, Nat.sub_diag, skipn_all. cbn [app skipn].
    destruct (write_ok d (n_writes d)); reflexivity. }
  split; [reflexivity |].
  split; [apply le_bytes32_bytes |].
  rewrite le_value_wrap.
  split; [reflexivity |].
  pose proof (Z.mod_pos_bound (time_ms * 1000) (2 ^ 32) ltac:(lia)). lia.
Qed.

Lemma set_integration_time_overflow_witness :
  0 <= 5000000 /\ 2 ^ 32 <= 5000000 * 1000 /\
  writes (emitted (set_integration_time 5000000) (sample_device 8))
  = [(0x01, 0x02 :: le_bytes32 ((5000000 * 1000) mod 2 ^ 32))].
Proof.
  split; [lia |]. split; [lia |].
  apply (set_integration_time_overflow 5000000 (sample_device 8));
    lia.
Defined.

(** C10. Negative integration time wraps: for a negative time_ms the
    call raises only if the USB write itself does, and the write carries
    a 5-byte packet whose payload is the little-endian encoding of
    (time_ms * 1000) mod 2^32; for time_ms = -1 the payload is
    [0x18, 0xFC, 0xFF, 0xFF]. *)
Theorem set_integration_time_negative (time_ms : Z) (d : Device) :
  time_ms < 0 ->
  let payload := le_bytes32 ((time_ms * 1000) mod 2 ^ 32) in
  fst (set_integration_time time_ms d)
  = (if write_ok d (n_writes d) then Ok tt else Raise) /\
  writes (emitted (set_integration_time time_ms) d) = [(0x01, 0x02 :: payload)] /\
  length (0x02 :: payload) = 5%nat /\
  Forall is_byte payload /\
  le_value payload = (time_ms * 1000) mod 2 ^ 32 /\
  (time_ms = -1 -> payload = [0x18; 0xFC; 0xFF; 0xFF]).
Proof.
  intros Hneg. cbv zeta.
  split; [apply set_integration_time_run |].
  split.
  { rewrite le_bytes32_mod. unfold emitted.
    rewrite (proj2 (set_integration_time_run time_ms d)).
    rewrite skipn_app, Nat.sub_diag, skipn_all. cbn [app skipn].
    destruct (write_ok d (n_writes d)); reflexivity. }
  split; [reflexivity |].
  split; [apply le_bytes32_bytes |].
  split.
  - rewrite le_bytes32_mod. apply le_value_wrap.
  - intros ->. reflexivity.
Qed.

Lemma set_integration_time_negative_witness :
  -1 < 0 /\
  writes (emitted (set_integration_time (-1)) (sample_device 8))
  = [(0x01, [0x02; 0x18; 0xFC; 0xFF; 0xFF])].
Proof.
  split; [lia |].
  apply (set_integration_time_negative (-1) (sample_device 8)). lia.
Defined.

(** ** The read loop *)

Lemma read_loop_run : forall (iters : list Z) (data : list Z) (d : Device),
  read_loop iters data d
  = (Ok (data ++ concat (received (read_reply d) (n_reads d) (length iters))),
     after_reads d (attempts (read_reply d) (n_reads d) (length iters))).
Proof.
  induction iters as [|i iters IH]; intros data d.
  - cbn. unfold ret, after_reads. rewrite !app_nil_r, Nat.add_0_r.
    destruct d; reflexivity.
  - cbn [read_loop length received attempts]. unfold dev_read.
    destruct (read_reply d (n_reads d)) as [packet|] eqn:Hr.
    + rewrite IH. cbn [read_reply n_reads concat].
      rewrite <- app_assoc. f_equal.
      unfold after_reads. cbn [write_ok read_reply n_writes n_reads trace repeat].
      rewrite <- app_assoc, Nat.add_succ_r. reflexivity.
    + cbn [concat]. rewrite app_nil_r. unfold after_reads. cbn [repeat].
      rewrite Nat.add_1_r. reflexivity.
Qed.

Lemma range_8_length : length (Py.range 0 8 1) = 8%nat.
Proof. reflexivity. Qed.

Lemma read_spectrum_data_run (d : Device) :
  read_spectrum_data d
  = (Ok (concat (received (read_reply d) (n_reads d) 8)),
     after_reads d (attempts (read_reply d) (n_reads d) 8)).
Proof.
  unfold read_spectrum_data. rewrite read_loop_run, range_8_length. reflexivity.
Qed.

Lemma attempts_le (reply : nat -> outcome (list Z)) : forall n k,
  (attempts reply k n <= n)%nat.
Proof.
  induction n as [|n IH]; intros k; cbn; [lia |].
  destruct (reply k); [specialize (IH (S k)) |]; lia.
Qed.

(** The script of a device on which the next reads deliver [packets]
    and the one after them, if it is among the first [n], fails. *)
Lemma received_script (reply : nat -> outcome (list Z)) :
  forall (n k : nat) (packets : list (list Z)),
    (length packets <= n)%nat ->
    (forall j, (j < length packets)%nat -> reply (k + j)%nat = Ok (nth j packets [])) ->
    ((length packets < n)%nat -> reply (k + length packets)%nat = Raise) ->
    received reply k n = packets /\
    attempts reply k n = Nat.min n (S (length packets)).
Proof.
  induction n as [|n IH]; intros k packets Hlen Hok Herr.
  - destruct packets; [split; reflexivity | cbn in Hlen; lia].
  - destruct packets as [|p ps].
    + cbn [received attempts length] in *.
      rewrite Nat.add_0_r in Herr. rewrite Herr by lia.
      split; [reflexivity | lia].
    + cbn [received attempts length] in *.
      pose proof (Hok 0%nat ltac:(lia)) as H0.
      rewrite Nat.add_0_r in H0. cbn [nth] in H0. rewrite H0.
      destruct (IH (S k) ps) as [Hr Ha].
      * lia.
      * intros j Hj. specialize (Hok (S j) ltac:(lia)).
        rewrite Nat.add_succ_r in Hok. exact Hok.
      * intros Hlt. specialize (Herr ltac:(lia)).
        rewrite Nat.add_succ_r in Herr. exact Herr.
      * rewrite Hr, Ha. split; [reflexivity | lia].
Qed.

Lemma received_size (reply : nat -> outcome (list Z)) :
  (forall n packet, reply n = Ok packet -> Py.len packet <= 512) ->
  forall n k, Py.len (concat (received reply k n)) <= 512 * Z.of_nat n.
Proof.
  intros Hsz. induction n as [|n IH]; intros k.
  - cbn. lia.
  - cbn [received]. destruct (reply k) as [p|] eqn:Hp.
    + cbn [concat]. rewrite len_app.
      specialize (Hsz _ _ Hp). specialize (IH (S k)). lia.
    + cbn. lia.
Qed.

(** What one call of [request_spectrum] does when the trigger command
    is accepted. *)
Lemma request_spectrum_run (d : Device) :
  write_ok d (n_writes d) = true ->
  request_spectrum d
  = (Ok (pairs (concat (received (read_reply d) (n_reads d) 8))),
     mkDevice (write_ok d) (read_reply d) (S (n_writes d))
              (n_reads d + attempts (read_reply d) (n_reads d) 8)
              (trace d ++ EvWrite 0x01 [0x09] :: EvSleep 100
                 :: repeat (EvRead 0x82 512)
                           (attempts (read_reply d) (n_reads d) 8))).
Proof.
  intros Hw. unfold request_spectrum, bind, dev_write, sleep. rewrite Hw.
  cbn [write_ok read_reply n_writes n_reads trace].
  rewrite read_spectrum_data_run.
  cbn [write_ok read_reply n_writes n_reads trace].
  unfold lift. rewrite decode_pixels_pairs. f_equal.
  unfold after_reads. cbn [write_ok read_reply n_writes n_reads trace].
  rewrite <- !app_assoc. reflexivity.
Qed.

(** C4. Read-loop truncation: when the next reads deliver [packets]
    (k-1 of them, fewer than 8) and the k-th read raises, the loop stops
    at that read (k reads are made, none after the failure), it returns
    normally with exactly the concatenation of the k-1 packets, and
    [request_spectrum] decodes exactly those bytes; when 8 packets are
    delivered no read fails, 8 reads are made and all their bytes are
    decoded. *)
Theorem read_loop_truncation (d : Device) (packets : list (list Z)) :
  (length packets <= 8)%nat ->
  (forall j, (j < length packets)%nat ->
     read_reply d (n_reads d + j)%nat = Ok (nth j packets [])) ->
  ((length packets < 8)%nat ->
     read_reply d (n_reads d + length packets)%nat = Raise) ->
  fst (read_spectrum_data d) = Ok (concat packets) /\
  n_reads (snd (read_spectrum_data d))
  = (n_reads d + Nat.min 8 (S (length packets)))%nat /\
  (write_ok d (n_writes d) = true ->
     fst (request_spectrum d) = decode_pixels (concat packets) /\
     (exists pixels, fst (request_spectrum d) = Ok pixels) /\
     n_reads (snd (request_spectrum d))
     = (n_reads d + Nat.min 8 (S (length packets)))%nat).
Proof.
  intros Hlen Hok Herr.
  destruct (received_script (read_reply d) 8 (n_reads d) packets Hlen Hok Herr)
    as [Hr Ha].
  rewrite read_spectrum_data_run, Hr, Ha.
  split; [reflexivity |]. split; [reflexivity |].
  intros Hw. rewrite (request_spectrum_run d Hw), Hr, Ha.
  cbn [fst snd n_reads]. rewrite decode_pixels_pairs.
  split; [reflexivity |]. split; [| reflexivity].
  exists (pairs (concat packets)). reflexivity.
Qed.

Lemma read_loop_truncation_witness :
  fst (request_spectrum (sample_device 3))
  = decode_pixels (sample_packet ++ sample_packet ++ sample_packet ++ []) /\
  n_reads (snd (request_spectrum (sample_device 3))) = 4%nat.
Proof.
  destruct (read_loop_truncation (sample_device 3)
              [sample_packet; sample_packet; sample_packet]) as (_ & _ & H).
  - cbn. lia.
  - intros j Hj. cbn in Hj.
    destruct j as [|[|[|j]]]; [reflexivity | reflexivity | reflexivity | lia].
  - intros _. reflexivity.
  - destruct (H eq_refl) as (H1 & _ & H2). split; [exact H1 | exact H2].
Defined.

(** C7. Pixel-count bound: when every successful read returns at most
    512 bytes, [request_spectrum] returns a pixel list (whenever the
    trigger command is accepted) and any list it returns has at most
    2048 pixels, however many of the 8 reads succeed. *)
Theorem request_spectrum_pixel_bound (d : Device) :
  (forall n packet, read_reply d n = Ok packet -> Py.len packet <= 512) ->
  (write_ok d (n_writes d) = true ->
     exists pixels, fst (request_spectrum d) = Ok pixels) /\
  (forall pixels, fst (request_spectrum d) = Ok pixels -> Py.len pixels <= 2048).
Proof.
  intros Hsz. split.
  - intros Hw. rewrite (request_spectrum_run d Hw). eexists. reflexivity.
  - intros pixels Hp.
    destruct (write_ok d (n_writes d)) eqn:Hw.
    + rewrite (request_spectrum_run d Hw) in Hp. cbn [fst] in Hp.
      assert (Hpx : pixels = pairs (concat (received (read_reply d) (n_reads d) 8)))
        by congruence.
      rewrite Hpx, pairs_len.
      pose proof (received_size (read_reply d) Hsz 8 (n_reads d)) as Hb.
      change (Z.of_nat 8) with 8 in Hb.
      apply Z.div_le_upper_bound; lia.
    + unfold request_spectrum, bind, dev_write in Hp. rewrite Hw in Hp.
      discriminate.
Qed.

Lemma request_spectrum_pixel_bound_witness :
  exists pixels,
    fst (request_spectrum (sample_device 3)) = Ok pixels /\
    Py.len pixels <= 2048.
Proof.
  assert (Hsz : forall n packet,
             read_reply (sample_device 3) n = Ok packet -> Py.len packet <= 512).
  { intros n packet H. unfold sample_device in H. cbn [read_reply] in H.
    destruct (n <? 3)%nat; [| discriminate].
    injection H as <-. cbn. lia. }
  destruct (request_spectrum_pixel_bound (sample_device 3) Hsz) as [Hex Hle].
  destruct (Hex eq_refl) as [pixels Hp].
  exists pixels. split; [exact Hp | exact (Hle pixels Hp)].
Defined.

(** ** Sleeps of the acquisition sequence *)

Lemma emitted_suffix {A} (m : M A) (d : Device) (s : list event) :
  trace (snd (m d)) = trace d ++ s -> emitted m d = s.
Proof.
  intros H. unfold emitted.
  rewrite H, skipn_app, Nat.sub_diag, skipn_all. reflexivity.
Qed.

Lemma sleeps_reads (n : nat) : sleeps (repeat (EvRead 0x82 512) n) = [].
Proof. induction n; [reflexivity | exact IHn]. Qed.

Lemma main_acquire_run (d : Device) :
  write_ok d (n_writes d) = true ->
  write_ok d (S (n_writes d)) = true ->
  write_ok d (S (S (n_writes d))) = true ->
  main_acquire d
  = (Ok (Py.slice (pairs (concat (received (read_reply d) (n_reads d) 8))) 20 2048),
     mkDevice (write_ok d) (read_reply d) (S (S (S (n_writes d))))
              (n_reads d + attempts (read_reply d) (n_reads d) 8)
              (trace d ++ [EvWrite 0x01 [0x01]; EvSleep 100;
                           EvWrite 0x01 [0x02; 0xA0; 0x86; 0x01; 0x00]; EvSleep 100;
                           EvWrite 0x01 [0x09]; EvSleep 100]
                       ++ repeat (EvRead 0x82 512)
                                 (attempts (read_reply d) (n_reads d) 8))).
Proof.
  intros H0 H1 H2.
  unfold main_acquire, initialize_spectrometer, set_integration_time.
  unfold bind, dev_write, sleep.
  rewrite H0. cbn [write_ok n_writes]. rewrite H1.
  rewrite request_spectrum_run by exact H2.
  cbn [write_ok read_reply n_writes n_reads trace ret].
  unfold ret. f_equal. f_equal.
  rewrite <- !app_assoc. reflexivity.
Qed.

(** C9, as the claim states it, fails: a complete run executes three
    sleeps, not two, and [request_spectrum] itself sleeps after the
    acquisition trigger. *)
Lemma two_sleeps_only_refuted :
  sleeps (emitted main_acquire (sample_device 8)) <> [100; 100] /\
  sleeps (emitted request_spectrum (sample_device 8)) <> [].
Proof. split; vm_compute; discriminate. Qed.

(** C9 (amended). Exactly three sleep delays: on a complete run of the
    command and acquisition sequence (the three command writes are
    accepted) the device sees, in this order, the initialize command, a
    100 ms sleep, the set-integration-time command, a 100 ms sleep, the
    acquisition trigger, a 100 ms sleep, and then at most 8 reads; these
    three are the only sleeps, and the read loop introduces none. *)
Theorem main_acquire_sleeps (d : Device) :
  write_ok d (n_writes d) = true ->
  write_ok d (S (n_writes d)) = true ->
  write_ok d (S (S (n_writes d))) = true ->
  exists reads : nat,
    (reads <= 8)%nat /\
    emitted main_acquire d
    = [EvWrite 0x01 [0x01]; EvSleep 100;
       EvWrite 0x01 [0x02; 0xA0; 0x86; 0x01; 0x00]; EvSleep 100;
       EvWrite 0x01 [0x09]; EvSleep 100]
      ++ repeat (EvRead 0x82 512) reads /\
    sleeps (emitted main_acquire d) = [100; 100; 100] /\
    sleeps (emitted read_spectrum_data d) = [].
Proof.
  intros H0 H1 H2.
  exists (attempts (read_reply d) (n_reads d) 8).
  split; [apply attempts_le |].
  assert (He : emitted main_acquire d
               = [EvWrite 0x01 [0x01]; EvSleep 100;
                  EvWrite 0x01 [0x02; 0xA0; 0x86; 0x01; 0x00]; EvSleep 100;
                  EvWrite 0x01 [0x09]; EvSleep 100]
                 ++ repeat (EvRead 0x82 512) (attempts (read_reply d) (n_reads d) 8)).
  { apply emitted_suffix. rewrite (main_acquire_run d H0 H1 H2). reflexivity. }
  split; [exact He |]. split.
  - rewrite He. unfold sleeps. rewrite flat_map_app.
    fold (sleeps (repeat (EvRead 0x82 512) (attempts (read_reply d) (n_reads d) 8))).
    rewrite sleeps_reads. reflexivity.
  - rewrite (emitted_suffix read_spectrum_data d
               (repeat (EvRead 0x82 512) (attempts (read_reply d) (n_reads d) 8))).
    + apply sleeps_reads.
    + rewrite read_spectrum_data_run. reflexivity.
Qed.

Lemma main_acquire_sleeps_witness :
  sleeps (emitted main_acquire (sample_device 8)) = [100; 100; 100].
Proof.
  destruct (main_acquire_sleeps (sample_device 8) eq_refl eq_refl eq_refl)
    as (reads & _ & _ & H & _).
  exact H.
Defined.

(** ** The wavelength mapper *)

Lemma combine_snd {A B} : forall (l : list A) (l' : list B),
  length l = length l' -> map snd (combine l l') = l'.
Proof.
  induction l as [|a l IH]; intros [|b l'] H; cbn in *; try discriminate.
  - reflexivity.
  - f_equal. apply IH. lia.
Qed.

Lemma combine_fst {A B} : forall (l : list A) (l' : list B),
  length l = length l' -> map fst (combine l l') = l.
Proof.
  induction l as [|a l IH]; intros [|b l'] H; cbn in *; try discriminate.
  - reflexivity.
  - f_equal. apply IH. lia.
Qed.

Lemma set_last_length {A} (y : list A) (x : A) : length (set_last y x) = length y.
Proof.
  destruct y as [|a y]; [reflexivity |].
  unfold set_last. rewrite length_app, removelast_firstn_len, length_firstn.
  cbn [length]. lia.
Qed.

Lemma linspace_f64_samples (start stop : float) (num : Z) :
  0 <= num ->
  exists ws, linspace_f64 start stop num = Ok ws /\ Py.len ws = num.
Proof.
  intros Hn. unfold linspace_f64.
  replace (num <? 0) with false by (symmetry; apply Z.ltb_ge; lia).
  eexists. split; [reflexivity |].
  unfold Py.len.
  assert (Hlen : forall y : list float,
             length (if 1 <? num then set_last y stop else y) = length y)
    by (intros y; destruct (1 <? num); [apply set_last_length | reflexivity]).
  rewrite Hlen, length_map.
  destruct (0 <? num - 1); [destruct (PrimFloat.eqb _ _) |];
    rewrite length_map, length_map, length_seq; lia.
Qed.

(** C2. Spectrum mapper length and alignment: given that
    [numpy.linspace] returns [num] samples when asked for [num >= 0],
    [interpret_spectrum] raises nothing on an intensity list of any
    length N and returns N pairs, in order: the wavelengths are the
    samples of [linspace], the i-th intensity is the i-th input
    intensity; for N = 0 the result is the empty list. *)
Theorem interpret_spectrum_aligned
  (F : Type) (linspace : F -> F -> Z -> outcome (list F))
  (active_pixels : list Z) (start_wavelength end_wavelength : F) :
  (forall s e num, 0 <= num ->
     exists ws, linspace s e num = Ok ws /\ Py.len ws = num) ->
  exists spectrum_data,
    interpret_spectrum F linspace active_pixels start_wavelength end_wavelength
    = Ok spectrum_data /\
    Py.len spectrum_data = Py.len active_pixels /\
    map snd spectrum_data = active_pixels /\
    linspace start_wavelength end_wavelength (Py.len active_pixels)
    = Ok (map fst spectrum_data) /\
    (forall i, 0 <= i < Py.len active_pixels ->
       exists w x, Py.index spectrum_data i = Ok (w, x) /\
                   Py.index active_pixels i = Ok x) /\
    (active_pixels = [] -> spectrum_data = []).
Proof.
  intros Hlin.
  destruct (Hlin start_wavelength end_wavelength (Py.len active_pixels)
                 (len_nonneg active_pixels)) as (ws & Hws & Hlen).
  assert (Hl : length ws = length active_pixels)
    by (unfold Py.len in Hlen; lia).
  exists (combine ws active_pixels).
  split; [unfold interpret_spectrum; rewrite Hws; reflexivity |].
  split; [unfold Py.len; rewrite length_combine; lia |].
  split; [apply combine_snd; exact Hl |].
  split; [rewrite combine_fst by exact Hl; exact Hws |].
  split.
  - intros i Hi. unfold Py.len in Hi.
    destruct (nth_error (combine ws active_pixels) (Z.to_nat i)) as [[w x]|] eqn:Hc.
    + exists w, x. split; [apply index_in_range; [lia | exact Hc] |].
      apply index_in_range; [lia |].
      rewrite <- (combine_snd ws active_pixels Hl) at 1.
      rewrite nth_error_map, Hc. reflexivity.
    + apply nth_error_None in Hc. rewrite length_combine in Hc. lia.
  - intros ->. destruct ws; reflexivity.
Qed.

Lemma interpret_spectrum_aligned_witness :
  exists spectrum_data,
    interpret_spectrum float linspace_f64 [10; 20; 30] 400%float 700%float
    = Ok spectrum_data /\
    Py.len spectrum_data = 3 /\
    map snd spectrum_data = [10; 20; 30].
Proof.
  destruct (interpret_spectrum_aligned float linspace_f64 [10; 20; 30]
              400%float 700%float linspace_f64_samples)
    as (sd & H1 & H2 & H3 & _).
  exists sd. split; [exact H1 |]. split; [exact H2 | exact H3].
Defined.

(** The mapper run on the model of [numpy.linspace]: the documented
    example of three intensities between 400 and 700 nm. *)
Example interpret_spectrum_example :
  interpret_spectrum float linspace_f64 [10; 20; 30] 400%float 700%float
  = Ok [(400%float, 10); (550%float, 20); (700%float, 30)].
Proof. vm_compute. reflexivity. Qed.

(** * Further properties of the code *)

(** ** The decoder on byte buffers *)

Lemma byte_lor_add (lo hi : Z) :
  is_byte lo -> Z.lor lo (Z.shiftl hi 8) = lo + hi * 256.
Proof.
  intros Hlo. unfold is_byte in Hlo.
  rewrite Z.shiftl_mul_pow2 by lia.
  assert (Hdisj : Z.land lo (hi * 2 ^ 8) = 0).
  { apply Z.bits_inj'. intros n Hn.
    rewrite Z.land_spec, Z.bits_0.
    destruct (Z.ltb_spec n 8) as [Hlt | Hge].
    - rewrite Z.mul_pow2_bits_low by lia. apply andb_false_r.
    - rewrite <- (Z.mod_small lo (2 ^ 8)) by lia.
      rewrite Z.mod_pow2_bits_high by lia. reflexivity. }
  rewrite <- (Z.lxor_lor _ _ Hdisj), <- (Z.add_nocarry_lxor _ _ Hdisj).
  reflexivity.
Qed.

Lemma pixel_bytes_lor (lo hi : Z) :
  is_byte lo -> pixel_bytes (Z.lor lo (Z.shiftl hi 8)) = [lo; hi].
Proof.
  intros Hlo. rewrite (byte_lor_add lo hi Hlo). unfold pixel_bytes, is_byte in *.
  rewrite land_255, Z.shiftr_div_pow2 by lia. change (2 ^ 8) with 256.
  rewrite Z.mod_add, Z.div_add by lia.
  rewrite Z.mod_small, Z.div_small by lia. reflexivity.
Qed.

Lemma lor_pixel_bytes (p : Z) :
  Z.lor (Z.land p 0xFF) (Z.shiftl (Z.shiftr p 8) 8) = p.
Proof.
  rewrite land_255, Z.shiftr_div_pow2 by lia. change (2 ^ 8) with 256.
  rewrite byte_lor_add by (apply Z.mod_pos_bound; lia).
  pose proof (Z.div_mod p 256 ltac:(lia)). lia.
Qed.

Lemma len_cons2_even {A} (a b : A) (l : list A) :
  Z.even (Py.len (a :: b :: l)) = Z.even (Py.len l).
Proof.
  unfold Py.len. cbn [length].
  replace (Z.of_nat (S (S (length l)))) with (Z.of_nat (length l) + 2 * 1) by lia.
  apply Z.even_add_mul_2.
Qed.

Lemma pairs_range (data : list Z) :
  Forall is_byte data -> Forall is_pixel (pairs data).
Proof.
  induction data as [| a | a b l IH] using list_ind2; intros Hb;
    cbn [pairs]; try constructor.
  - inversion Hb as [| ? ? Ha Hb']; subst.
    inversion Hb' as [| ? ? Hbb Hl]; subst.
    rewrite byte_lor_add by exact Ha.
    unfold is_byte, is_pixel in *. lia.
  - apply IH. inversion Hb as [| ? ? _ Hb']; subst.
    inversion Hb'; subst. assumption.
Qed.

Lemma pairs_encode (data : list Z) :
  Forall is_byte data -> Z.even (Py.len data) = true ->
  encode_pixels (pairs data) = data.
Proof.
  induction data as [| a | a b l IH] using list_ind2; intros Hb He.
  - reflexivity.
  - discriminate.
  - inversion Hb as [| ? ? Ha Hb']; subst.
    inversion Hb' as [| ? ? _ Hl]; subst.
    rewrite len_cons2_even in He.
    cbn [pairs]. unfold encode_pixels. cbn [flat_map].
    rewrite (pixel_bytes_lor a b Ha).
    fold (encode_pixels (pairs l)). rewrite (IH Hl He). reflexivity.
Qed.

Lemma encode_pairs (pixels : list Z) : pairs (encode_pixels pixels) = pixels.
Proof.
  induction pixels as [|p ps IH]; [reflexivity |].
  unfold encode_pixels. cbn [flat_map pixel_bytes app pairs].
  fold (encode_pixels ps). rewrite lor_pixel_bytes, IH. reflexivity.
Qed.

Lemma encode_bytes (pixels : list Z) :
  Forall is_pixel pixels -> Forall is_byte (encode_pixels pixels).
Proof.
  induction 1 as [| p ps Hp _ IH]; [constructor |].
  unfold encode_pixels. cbn [flat_map pixel_bytes app].
  unfold is_pixel, is_byte in *.
  constructor; [| constructor; [| exact IH]].
  - rewrite land_255. apply Z.mod_pos_bound. lia.
  - rewrite Z.shiftr_div_pow2 by lia. change (2 ^ 8) with 256. split.
    + apply Z.div_pos; lia.
    + apply Z.div_lt_upper_bound; lia.
Qed.

Lemma encode_len (pixels : list Z) :
  Py.len (encode_pixels pixels) = 2 * Py.len pixels.
Proof.
  unfold Py.len. induction pixels as [|p ps IH]; [reflexivity |].
  unfold encode_pixels in *. cbn [flat_map pixel_bytes app length]. lia.
Qed.

Lemma pairs_app_even (a b : list Z) :
  Z.even (Py.len a) = true -> pairs (a ++ b) = pairs a ++ pairs b.
Proof.
  induction a as [| x | x y l IH] using list_ind2; intros He.
  - reflexivity.
  - discriminate.
  - rewrite len_cons2_even in He. cbn [app pairs]. rewrite (IH He). reflexivity.
Qed.

Lemma pairs_concat (packets : list (list Z)) :
  Forall (fun p => Z.even (Py.len p) = true) packets ->
  pairs (concat packets) = concat (map pairs packets).
Proof.
  induction 1 as [| p ps Hp _ IH]; [reflexivity |].
  cbn [concat map]. rewrite (pairs_app_even p (concat ps) Hp), IH. reflexivity.
Qed.

(** X1. On a buffer of bytes (each in 0..255) the decoder returns only
    16-bit values: every pixel is in 0..65535. *)
Theorem decode_pixels_range (data : list Z) :
  Forall is_byte data ->
  exists pixels, decode_pixels data = Ok pixels /\ Forall is_pixel pixels.
Proof.
  intros Hb. exists (pairs data).
  split; [apply decode_pixels_pairs | apply pairs_range; exact Hb].
Qed.

Lemma decode_pixels_range_witness :
  Forall is_byte sample_packet /\
  exists pixels, decode_pixels sample_packet = Ok pixels /\ Forall is_pixel pixels.
Proof.
  assert (Hb : Forall is_byte sample_packet)
    by (unfold sample_packet, is_byte; repeat constructor; lia).
  split; [exact Hb | exact (decode_pixels_range sample_packet Hb)].
Defined.

(** X2. Nothing is lost on an even-length buffer of bytes: writing each
    decoded pixel back as its low byte [p & 0xFF] and its high byte
    [p >> 8] gives the buffer again; so two different even-length byte
    buffers never decode to the same pixels. *)
Theorem decode_pixels_lossless (data : list Z) :
  Forall is_byte data -> Z.even (Py.len data) = true ->
  exists pixels,
    decode_pixels data = Ok pixels /\
    encode_pixels pixels = data /\
    (forall data', Forall is_byte data' -> Z.even (Py.len data') = true ->
                   decode_pixels data' = Ok pixels -> data' = data).
Proof.
  intros Hb He. exists (pairs data).
  split; [apply decode_pixels_pairs |].
  split; [apply pairs_encode; assumption |].
  intros data' Hb' He' Hd. rewrite decode_pixels_pairs in Hd.
  injection Hd as Hd.
  rewrite <- (pairs_encode data' Hb' He'), Hd.
  apply pairs_encode; assumption.
Qed.

Lemma decode_pixels_lossless_witness :
  exists pixels,
    decode_pixels sample_packet = Ok pixels /\
    encode_pixels pixels = sample_packet.
Proof.
  assert (Hb : Forall is_byte sample_packet)
    by (unfold sample_packet, is_byte; repeat constructor; lia).
  destruct (decode_pixels_lossless sample_packet Hb eq_refl) as (px & H1 & H2 & _).
  exists px. split; [exact H1 | exact H2].
Defined.

(** X3. Every list of 16-bit values is the decoding of a byte buffer:
    the buffer of its low and high bytes, which has twice its length,
    holds only bytes and decodes back to the list. *)
Theorem decode_pixels_of_encoding (pixels : list Z) :
  Forall is_pixel pixels ->
  Forall is_byte (encode_pixels pixels) /\
  Py.len (encode_pixels pixels) = 2 * Py.len pixels /\
  decode_pixels (encode_pixels pixels) = Ok pixels.
Proof.
  intros Hp.
  split; [apply encode_bytes; exact Hp |].
  split; [apply encode_len |].
  rewrite decode_pixels_pairs, encode_pairs. reflexivity.
Qed.

Lemma decode_pixels_of_encoding_witness :
  Forall is_pixel [1; 255; 256; 65535] /\
  decode_pixels (encode_pixels [1; 255; 256; 65535]) = Ok [1; 255; 256; 65535].
Proof.
  assert (Hp : Forall is_pixel [1; 255; 256; 65535])
    by (unfold is_pixel; repeat constructor; lia).
  split; [exact Hp |].
  exact (proj2 (proj2 (decode_pixels_of_encoding [1; 255; 256; 65535] Hp))).
Defined.

(** X4. Packets of even length are decoded independently: when every
    packet has an even number of bytes, decoding their concatenation
    gives the concatenation of the decodings of the packets, so no
    pixel spans two packets. *)
Theorem decode_pixels_packets (packets : list (list Z)) :
  Forall (fun p => Z.even (Py.len p) = true) packets ->
  exists pixel_lists,
    Forall2 (fun p pl => decode_pixels p = Ok pl) packets pixel_lists /\
    decode_pixels (concat packets) = Ok (concat pixel_lists).
Proof.
  intros He. exists (map pairs packets). split.
  - clear He. induction packets as [|p ps IH]; constructor.
    + apply decode_pixels_pairs.
    + exact IH.
  - rewrite decode_pixels_pairs, pairs_concat by exact He. reflexivity.
Qed.

Lemma decode_pixels_packets_witness :
  Forall (fun p => Z.even (Py.len p) = true) [sample_packet; [7; 1]] /\
  exists pixel_lists,
    Forall2 (fun p pl => decode_pixels p = Ok pl) [sample_packet; [7; 1]] pixel_lists /\
    decode_pixels (concat [sample_packet; [7; 1]]) = Ok (concat pixel_lists).
Proof.
  assert (He : Forall (fun p => Z.even (Py.len p) = true) [sample_packet; [7; 1]])
    by (repeat constructor).
  split; [exact He | exact (decode_pixels_packets _ He)].
Defined.

(** X5. A packet of odd length shifts the pairing: when a packet of an
    even number of bytes followed by one more byte [x] is followed by a
    packet starting with [y], the byte [x] is not dropped but becomes the
    low byte of a pixel whose high byte is [y], and the rest of the
    second packet is paired from its second byte on. *)
Theorem decode_pixels_odd_packet (a b : list Z) (x y : Z) :
  Z.even (Py.len a) = true ->
  exists pa pb,
    decode_pixels a = Ok pa /\
    decode_pixels b = Ok pb /\
    decode_pixels ((a ++ [x]) ++ y :: b)
    = Ok (pa ++ Z.lor x (Z.shiftl y 8) :: pb).
Proof.
  intros He. exists (pairs a), (pairs b).
  split; [apply decode_pixels_pairs |].
  split; [apply decode_pixels_pairs |].
  rewrite decode_pixels_pairs, <- app_assoc, (pairs_app_even a _ He).
  reflexivity.
Qed.

Lemma decode_pixels_odd_packet_witness :
  decode_pixels (([1; 0] ++ [2]) ++ 3 :: [4; 0]) = Ok ([1] ++ 770 :: [4]).
Proof.
  destruct (decode_pixels_odd_packet [1; 0] [4; 0] 2 3 eq_refl)
    as (pa & pb & Ha & Hb & H).
  rewrite H. vm_compute in Ha. vm_compute in Hb.
  injection Ha as <-. injection Hb as <-. reflexivity.
Defined.

(** ** What [request_spectrum] does on the device *)

Lemma attempts_pos (reply : nat -> outcome (list Z)) (k n : nat) :
  (0 < n)%nat -> (1 <= attempts reply k n)%nat.
Proof.
  destruct n as [|n]; [lia |]. intros _. cbn [attempts].
  destruct (reply k); lia.
Qed.

Lemma writes_reads (n : nat) : writes (repeat (EvRead 0x82 512) n) = [].
Proof. induction n; [reflexivity | exact IHn]. Qed.

Lemma request_spectrum_refused (d : Device) :
  write_ok d (n_writes d) = false ->
  request_spectrum d
  = (Raise,
     mkDevice (write_ok d) (read_reply d) (S (n_writes d)) (n_reads d)
              (trace d ++ [EvWrite 0x01 [0x09]])).
Proof.
  intros Hw. unfold request_spectrum, bind, dev_write. rewrite Hw. reflexivity.
Qed.

(** X6. The device footprint of [request_spectrum]: it makes exactly one
    write, the trigger [0x09] on endpoint 0x01.  If that write is
    refused the call raises at once, without sleeping and without any
    read.  If it is accepted the call returns a pixel list after one
    100 ms sleep and between 1 and 8 reads, each of 512 bytes on
    endpoint 0x82, and nothing else. *)
Theorem request_spectrum_footprint (d : Device) :
  writes (emitted request_spectrum d) = [(0x01, [0x09])] /\
  (write_ok d (n_writes d) = false ->
     fst (request_spectrum d) = Raise /\
     emitted request_spectrum d = [EvWrite 0x01 [0x09]] /\
     n_reads (snd (request_spectrum d)) = n_reads d) /\
  (write_ok d (n_writes d) = true ->
     exists pixels reads,
       fst (request_spectrum d) = Ok pixels /\
       (1 <= reads <= 8)%nat /\
       emitted request_spectrum d
       = EvWrite 0x01 [0x09] :: EvSleep 100 :: repeat (EvRead 0x82 512) reads).
Proof.
  destruct (write_ok d (n_writes d)) eqn:Hw.
  - assert (He : emitted request_spectrum d
                 = EvWrite 0x01 [0x09] :: EvSleep 100
                     :: repeat (EvRead 0x82 512)
                               (attempts (read_reply d) (n_reads d) 8)).
    { apply emitted_suffix. rewrite (request_spectrum_run d Hw). reflexivity. }
    split; [| split; [discriminate |]].
    + rewrite He. cbn [writes flat_map app].
      fold (writes (repeat (EvRead 0x82 512) (attempts (read_reply d) (n_reads d) 8))).
      rewrite writes_reads. reflexivity.
    + intros _. exists (pairs (concat (received (read_reply d) (n_reads d) 8))),
                       (attempts (read_reply d) (n_reads d) 8).
      split; [rewrite (request_spectrum_run d Hw); reflexivity |].
      split; [| exact He].
      split; [apply attempts_pos; lia | apply attempts_le].
  - assert (He : emitted request_spectrum d = [EvWrite 0x01 [0x09]]).
    { apply emitted_suffix. rewrite (request_spectrum_refused d Hw). reflexivity. }
    split; [rewrite He; reflexivity |].
    split; [| discriminate].
    intros _. rewrite (request_spectrum_refused d Hw).
    split; [reflexivity |]. split; [exact He | reflexivity].
Qed.

Lemma request_spectrum_footprint_witness :
  (fst (request_spectrum (refusing_device 0)) = Raise /\
   emitted request_spectrum (refusing_device 0) = [EvWrite 0x01 [0x09]]) /\
  exists pixels reads,
    fst (request_spectrum (sample_device 3)) = Ok pixels /\
    (1 <= reads <= 8)%nat /\
    emitted request_spectrum (sample_device 3)
    = EvWrite 0x01 [0x09] :: EvSleep 100 :: repeat (EvRead 0x82 512) reads.
Proof.
  split.
  - destruct (request_spectrum_footprint (refusing_device 0)) as (_ & Hf & _).
    destruct (Hf eq_refl) as (H1 & H2 & _). split; [exact H1 | exact H2].
  - destruct (request_spectrum_footprint (sample_device 3)) as (_ & _ & Ht).
    exact (Ht eq_refl).
Defined.

(** ** A complete acquisition *)

Lemma received_full (reply : nat -> outcome (list Z)) (c : Z) :
  forall (n k : nat),
    (forall j, (j < n)%nat ->
       exists p, reply (k + j)%nat = Ok p /\ Py.len p = c) ->
    Py.len (concat (received reply k n)) = c * Z.of_nat n /\
    attempts reply k n = n.
Proof.
  induction n as [|n IH]; intros k Hr.
  - cbn. split; [unfold Py.len; cbn; lia | reflexivity].
  - cbn [received attempts].
    destruct (Hr 0%nat ltac:(lia)) as (p & Hp & Hlen).
    rewrite Nat.add_0_r in Hp. rewrite Hp.
    destruct (IH (S k)) as [Hl Ha].
    { intros j Hj. destruct (Hr (S j) ltac:(lia)) as (q & Hq & Hql).
      exists q. rewrite Nat.add_succ_r in Hq. split; assumption. }
    cbn [concat]. rewrite len_app, Hl, Ha, Hlen. split; [lia | reflexivity].
Qed.

Lemma slice_20_2048_len {A} (l : list A) :
  Py.len (Py.slice l 20 2048) = Z.max 0 (Z.min (Py.len l) 2048 - 20).
Proof.
  rewrite slice_20_2048. unfold Py.len.
  rewrite length_firstn, length_skipn. lia.
Qed.

(** The device once the initialize and set-integration-time commands of
    [main] have been accepted. *)
Lemma commands_accepted_run (d : Device) :
  write_ok d (n_writes d) = true ->
  write_ok d (S (n_writes d)) = true ->
  (initialize_spectrometer ;; set_integration_time 100) d
  = (Ok tt,
     mkDevice (write_ok d) (read_reply d) (S (S (n_writes d))) (n_reads d)
              (trace d ++ [EvWrite 0x01 [0x01]; EvSleep 100;
                           EvWrite 0x01 [0x02; 0xA0; 0x86; 0x01; 0x00];
                           EvSleep 100])).
Proof.
  intros H0 H1.
  unfold initialize_spectrometer, set_integration_time, bind, dev_write, sleep.
  rewrite H0. cbn [write_ok n_writes]. rewrite H1.
  cbn [write_ok read_reply n_writes n_reads trace].
  f_equal. f_equal. rewrite <- !app_assoc. reflexivity.
Qed.

(** X7. A complete acquisition: when the three command writes are
    accepted and each of the next 8 reads returns 512 bytes, the call of
    [request_spectrum] made by [main] (on the device as the two
    configuration commands leave it) returns exactly 2048 pixels, the
    run makes exactly 8 reads, and the selection that [main] takes from
    these pixels has exactly 2028 of them. *)
Theorem main_acquire_complete (d : Device) :
  write_ok d (n_writes d) = true ->
  write_ok d (S (n_writes d)) = true ->
  write_ok d (S (S (n_writes d))) = true ->
  (forall j, (j < 8)%nat ->
     exists p, read_reply d (n_reads d + j)%nat = Ok p /\ Py.len p = 512) ->
  let configured := snd ((initialize_spectrometer ;; set_integration_time 100) d) in
  exists spectrum,
    fst (request_spectrum configured) = Ok spectrum /\
    Py.len spectrum = 2048 /\
    fst (main_acquire d) = Ok (Py.slice spectrum 20 2048) /\
    Py.len (Py.slice spectrum 20 2048) = 2028 /\
    n_reads (snd (main_acquire d)) = (n_reads d + 8)%nat.
Proof.
  intros H0 H1 H2 Hr. cbv zeta.
  destruct (received_full (read_reply d) 512 8 (n_reads d) Hr) as [Hl Ha].
  change (Z.of_nat 8) with 8 in Hl.
  assert (Hp : Py.len (pairs (concat (received (read_reply d) (n_reads d) 8))) = 2048)
    by (rewrite pairs_len, Hl; reflexivity).
  exists (pairs (concat (received (read_reply d) (n_reads d) 8))).
  split.
  { rewrite (commands_accepted_run d H0 H1). cbn [snd].
    rewrite request_spectrum_run by exact H2. reflexivity. }
  split; [exact Hp |].
  rewrite (main_acquire_run d H0 H1 H2). cbn [fst snd n_reads].
  split; [reflexivity |].
  split; [rewrite slice_20_2048_len, Hp; reflexivity |].
  rewrite Ha. reflexivity.
Qed.

Lemma main_acquire_complete_witness :
  exists spectrum,
    fst (request_spectrum
           (snd ((initialize_spectrometer ;; set_integration_time 100) full_device)))
    = Ok spectrum /\
    Py.len spectrum = 2048 /\
    fst (main_acquire full_device) = Ok (Py.slice spectrum 20 2048) /\
    Py.len (Py.slice spectrum 20 2048) = 2028.
Proof.
  destruct (main_acquire_complete full_device eq_refl eq_refl eq_refl)
    as (sp & H1 & H2 & H3 & H4 & _).
  - intros j _. exists (repeat 0xAB 512). split; reflexivity.
  - exists sp. split; [exact H1 |]. split; [exact H2 |].
    split; [exact H3 | exact H4].
Defined.

(** ** A refused command stops the run *)

Lemma main_acquire_refused (d : Device) (k : nat) :
  (k < 3)%nat ->
  (forall j, (j < k)%nat -> write_ok d (n_writes d + j)%nat = true) ->
  write_ok d (n_writes d + k)%nat = false ->
  main_acquire d
  = (Raise,
     mkDevice (write_ok d) (read_reply d) (n_writes d + k + 1) (n_reads d)
              (trace d ++ firstn (2 * k + 1) command_events)).
Proof.
  intros Hk Hok Hbad.
  destruct k as [|[|[|k]]]; [| | | lia].
  - rewrite Nat.add_0_r in Hbad.
    unfold main_acquire, initialize_spectrometer, bind, dev_write.
    rewrite Hbad. f_equal. f_equal. lia.
  - pose proof (Hok 0%nat ltac:(lia)) as H0. rewrite Nat.add_0_r in H0.
    rewrite Nat.add_1_r in Hbad.
    unfold main_acquire, initialize_spectrometer, set_integration_time,
      bind, dev_write, sleep.
    rewrite H0. cbn [write_ok n_writes]. rewrite Hbad.
    cbn [write_ok read_reply n_writes n_reads trace].
    f_equal. f_equal; [lia |]. rewrite <- !app_assoc. reflexivity.
  - pose proof (Hok 0%nat ltac:(lia)) as H0. rewrite Nat.add_0_r in H0.
    pose proof (Hok 1%nat ltac:(lia)) as H1. rewrite Nat.add_1_r in H1.
    replace (n_writes d + 2)%nat with (S (S (n_writes d))) in Hbad by lia.
    unfold main_acquire, initialize_spectrometer, set_integration_time.
    unfold bind, dev_write, sleep.
    rewrite H0. cbn [write_ok n_writes]. rewrite H1.
    rewrite request_spectrum_refused by exact Hbad.
    cbn [write_ok read_reply n_writes n_reads trace].
    f_equal. f_equal; [lia |]. rewrite <- !app_assoc. reflexivity.
Qed.

(** X8. Fail-stop: when the k-th of the three command writes of the
    acquisition sequence (initialize, set integration time, trigger) is
    the first one refused, the sequence raises, the device has seen only
    the commands and sleeps up to and including the refused write, no
    later command is sent and no read is attempted. *)
Theorem main_acquire_fail_stop (d : Device) (k : nat) :
  (k < 3)%nat ->
  (forall j, (j < k)%nat -> write_ok d (n_writes d + j)%nat = true) ->
  write_ok d (n_writes d + k)%nat = false ->
  fst (main_acquire d) = Raise /\
  emitted main_acquire d = firstn (2 * k + 1) command_events /\
  n_writes (snd (main_acquire d)) = (n_writes d + k + 1)%nat /\
  n_reads (snd (main_acquire d)) = n_reads d.
Proof.
  intros Hk Hok Hbad.
  pose proof (main_acquire_refused d k Hk Hok Hbad) as Hrun.
  split; [rewrite Hrun; reflexivity |].
  split; [apply emitted_suffix; rewrite Hrun; reflexivity |].
  rewrite Hrun. split; reflexivity.
Qed.

Lemma main_acquire_fail_stop_witness :
  fst (main_acquire (refusing_device 1)) = Raise /\
  emitted main_acquire (refusing_device 1)
  = [EvWrite 0x01 [0x01]; EvSleep 100;
     EvWrite 0x01 [0x02; 0xA0; 0x86; 0x01; 0x00]].
Proof.
  destruct (main_acquire_fail_stop (refusing_device 1) 1) as (H1 & H2 & _).
  - lia.
  - intros j Hj. destruct j as [|j]; [reflexivity | lia].
  - reflexivity.
  - split; [exact H1 | exact H2].
Defined.

(** ** Which integration times send the same command *)

Lemma le_bytes32_eq_iff (u v : Z) :
  le_bytes32 u = le_bytes32 v <-> u mod 2 ^ 32 = v mod 2 ^ 32.
Proof.
  split; intros Heq.
  - rewrite <- (le_value_wrap u), <- (le_value_wrap v), Heq. reflexivity.
  - rewrite <- (le_bytes32_mod u), <- (le_bytes32_mod v), Heq. reflexivity.
Qed.

(** X9. Within the range the command can carry (0 <= time_ms * 1000 <
    2^32) the command determines the integration time: two different
    times never send the same packet. *)
Theorem integration_command_injective (a b : Z) :
  0 <= a * 1000 < 2 ^ 32 -> 0 <= b * 1000 < 2 ^ 32 ->
  integration_command a = integration_command b -> a = b.
Proof.
  intros Ha Hb Heq. rewrite !integration_command_le in Heq.
  apply (f_equal (@tl Z)) in Heq. cbn [tl] in Heq.
  apply le_bytes32_eq_iff in Heq.
  rewrite !Z.mod_small in Heq by assumption. lia.
Qed.

Lemma integration_command_injective_witness :
  0 <= 100 * 1000 < 2 ^ 32 /\ 100 = 100.
Proof.
  assert (Hr : 0 <= 100 * 1000 < 2 ^ 32) by lia.
  split; [exact Hr |].
  exact (integration_command_injective 100 100 Hr Hr eq_refl).
Defined.

(** X10. Over all integers, two integration times send the same command
    exactly when they differ by a multiple of 2^29 ms (536870912 ms):
    the 32-bit microsecond field wraps there, so [time_ms] and
    [time_ms + 2^29] are indistinguishable to the device. *)
Theorem integration_command_collision (a b : Z) :
  integration_command a = integration_command b <-> (a - b) mod 2 ^ 29 = 0.
Proof.
  rewrite !integration_command_le. split.
  - intros Heq. apply (f_equal (@tl Z)) in Heq. cbn [tl] in Heq.
    apply le_bytes32_eq_iff in Heq.
    pose proof (Z.div_mod (a * 1000) (2 ^ 32) ltac:(lia)) as Da.
    pose proof (Z.div_mod (b * 1000) (2 ^ 32) ltac:(lia)) as Db.
    apply Z.mod_divide; [lia |].
    apply (Z.gauss (2 ^ 29) 125 (a - b)); [| reflexivity].
    exists ((a * 1000) / 2 ^ 32 - (b * 1000) / 2 ^ 32).
    change (2 ^ 32) with (8 * 2 ^ 29) in *. lia.
  - intros Hm. apply Z.mod_divide in Hm; [| lia]. destruct Hm as [q Hq].
    f_equal. apply le_bytes32_eq_iff.
    replace (a * 1000) with (b * 1000 + (125 * q) * 2 ^ 32)
      by (change (2 ^ 32) with (8 * 2 ^ 29); lia).
    apply Z.mod_add. lia.
Qed.

(** ** Plotting and the processing steps of [main] *)

Lemma combine_nil_r {A B} (l : list A) : combine l (@nil B) = [].
Proof. destruct l; reflexivity. Qed.

Lemma plot_spectrum_rows {F} (row : F * Z) (rows : list (F * Z)) :
  plot_spectrum (row :: rows)
  = Ok (ColFloat (map fst (row :: rows)), ColInt (map snd (row :: rows))).
Proof. reflexivity. Qed.

(** X11. [plot_spectrum] raises exactly on an empty spectrum (the
    unpacking of [zip( *spectrum_data)] into two names finds no value);
    on any other input it hands to the plot the wavelengths and the
    intensities, two series of the same length as the input (the calls
    on matplotlib themselves are taken to succeed). *)
Theorem plot_spectrum_empty (F : Type) (spectrum_data : list (F * Z)) :
  (plot_spectrum spectrum_data = Raise <-> spectrum_data = []) /\
  (spectrum_data <> [] ->
     plot_spectrum spectrum_data
     = Ok (ColFloat (map fst spectrum_data), ColInt (map snd spectrum_data)) /\
     length (map fst spectrum_data) = length spectrum_data /\
     length (map snd spectrum_data) = length spectrum_data).
Proof.
  destruct spectrum_data as [|row rows].
  - split; [split; reflexivity | intros Hne; contradiction Hne; reflexivity].
  - split.
    + split; intros Heq; discriminate Heq.
    + intros _. rewrite plot_spectrum_rows, !length_map. repeat split.
Qed.

Lemma plot_spectrum_empty_witness :
  plot_spectrum [(400%float, 10); (700%float, 20)]
  = Ok (ColFloat [400%float; 700%float], ColInt [10; 20]).
Proof.
  destruct (plot_spectrum_empty float [(400%float, 10); (700%float, 20)])
    as [_ Hne].
  destruct (Hne ltac:(discriminate)) as [Hp _]. exact Hp.
Defined.

Lemma slice_short {A} (l : list A) :
  Py.len l <= 20 -> Py.slice l 20 2048 = [].
Proof.
  intros Hl. pose proof (slice_20_2048_len l) as Hs.
  unfold Py.len in Hs.
  destruct (Py.slice l 20 2048); [reflexivity |].
  cbn [length] in Hs. unfold Py.len in Hl. lia.
Qed.

Lemma main_process_short (F : Type) (linspace : F -> F -> Z -> outcome (list F))
      (s e : F) (spectrum : list Z) :
  Py.len spectrum <= 20 -> main_process F linspace s e spectrum = Raise.
Proof.
  intros Hl. unfold main_process, interpret_spectrum.
  rewrite (slice_short spectrum Hl).
  destruct (linspace s e (Py.len [])) as [ws|]; [| reflexivity].
  cbn [obind]. rewrite combine_nil_r. reflexivity.
Qed.

(** X12. The processing steps of [main] on a decoded spectrum of L
    pixels.  If L <= 20 no active pixel is left and the steps end in an
    exception, whatever [numpy.linspace] does.  If L > 20, and
    [numpy.linspace] returns [num] samples when asked for [num >= 0],
    the plot receives min(L, 2048) - 20 wavelengths and, as
    intensities, exactly the pixels 20 .. min(L, 2048) - 1. *)
Theorem main_process_outcome
  (F : Type) (linspace : F -> F -> Z -> outcome (list F))
  (start_wavelength end_wavelength : F) (spectrum : list Z) :
  (Py.len spectrum <= 20 ->
     main_process F linspace start_wavelength end_wavelength spectrum = Raise) /\
  ((forall s e num, 0 <= num ->
      exists ws, linspace s e num = Ok ws /\ Py.len ws = num) ->
   20 < Py.len spectrum ->
   exists wavelengths,
     Py.len wavelengths = Z.min (Py.len spectrum) 2048 - 20 /\
     main_process F linspace start_wavelength end_wavelength spectrum
     = Ok (ColFloat wavelengths, ColInt (Py.slice spectrum 20 2048))).
Proof.
  split; [apply main_process_short |].
  intros Hlin Hl.
  pose proof (slice_20_2048_len spectrum) as Hs.
  destruct (Hlin start_wavelength end_wavelength
                 (Py.len (Py.slice spectrum 20 2048)) (len_nonneg _))
    as (ws & Hws & Hlen).
  exists ws. split; [rewrite Hlen, Hs; lia |].
  unfold main_process, interpret_spectrum. rewrite Hws. cbn [obind].
  assert (Heq : length ws = length (Py.slice spectrum 20 2048))
    by (unfold Py.len in Hlen; lia).
  destruct (combine ws (Py.slice spectrum 20 2048)) as [|row rows] eqn:Hc.
  - apply (f_equal (@length _)) in Hc. rewrite length_combine in Hc.
    cbn [length] in Hc. unfold Py.len in *. lia.
  - rewrite plot_spectrum_rows, <- Hc.
    rewrite (combine_fst _ _ Heq), (combine_snd _ _ Heq). reflexivity.
Qed.

Lemma main_process_outcome_witness :
  main_process float linspace_f64 400%float 700%float [] = Raise /\
  exists wavelengths,
    Py.len wavelengths = Z.min (Py.len (repeat 7 23)) 2048 - 20 /\
    main_process float linspace_f64 400%float 700%float (repeat 7 23)
    = Ok (ColFloat wavelengths, ColInt (Py.slice (repeat 7 23) 20 2048)).
Proof.
  split.
  - apply (main_process_outcome float linspace_f64 400%float 700%float []).
    cbn. lia.
  - apply (main_process_outcome float linspace_f64 400%float 700%float
             (repeat 7 23)).
    + exact linspace_f64_samples.
    + cbn. lia.
Defined.

Lemma main_body_run (F : Type) (linspace : F -> F -> Z -> outcome (list F))
      (s e : F) (d : Device) :
  write_ok d (n_writes d) = true ->
  write_ok d (S (n_writes d)) = true ->
  write_ok d (S (S (n_writes d))) = true ->
  main_body F linspace s e d
  = (main_process F linspace s e
       (pairs (concat (received (read_reply d) (n_reads d) 8))),
     mkDevice (write_ok d) (read_reply d) (S (S (S (n_writes d))))
              (n_reads d + attempts (read_reply d) (n_reads d) 8)
              (trace d ++ command_events
                       ++ repeat (EvRead 0x82 512)
                                 (attempts (read_reply d) (n_reads d) 8))).
Proof.
  intros H0 H1 H2.
  unfold main_body, initialize_spectrometer, set_integration_time.
  unfold bind, dev_write, sleep.
  rewrite H0. cbn [write_ok n_writes]. rewrite H1.
  rewrite request_spectrum_run by exact H2.
  cbn [write_ok read_reply n_writes n_reads trace].
  unfold lift. f_equal. f_equal.
  rewrite <- !app_assoc. reflexivity.
Qed.

(** X13. A run whose first read fails ends in an exception although
    every command was accepted: the three commands are sent, one read is
    attempted, no pixel is decoded, and the processing steps raise
    instead of plotting an empty spectrum. *)
Theorem main_body_first_read_fails
  (F : Type) (linspace : F -> F -> Z -> outcome (list F))
  (start_wavelength end_wavelength : F) (d : Device) :
  write_ok d (n_writes d) = true ->
  write_ok d (S (n_writes d)) = true ->
  write_ok d (S (S (n_writes d))) = true ->
  read_reply d (n_reads d) = Raise ->
  fst (request_spectrum d) = Ok [] /\
  fst (main_body F linspace start_wavelength end_wavelength d) = Raise /\
  emitted (main_body F linspace start_wavelength end_wavelength) d
  = command_events ++ [EvRead 0x82 512].
Proof.
  intros H0 H1 H2 Hr.
  assert (Hrec : received (read_reply d) (n_reads d) 8 = [])
    by (cbn [received]; rewrite Hr; reflexivity).
  assert (Hatt : attempts (read_reply d) (n_reads d) 8 = 1%nat)
    by (cbn [attempts]; rewrite Hr; reflexivity).
  split.
  - rewrite (request_spectrum_run d H0), Hrec. reflexivity.
  - pose proof (main_body_run F linspace start_wavelength end_wavelength d H0 H1 H2)
      as Hrun.
    rewrite Hrec, Hatt in Hrun. split.
    + rewrite Hrun. cbn [fst concat pairs]. apply main_process_short.
      cbn. lia.
    + apply emitted_suffix. rewrite Hrun. reflexivity.
Qed.

Lemma main_body_first_read_fails_witness :
  fst (main_body float linspace_f64 400%float 700%float (sample_device 0)) = Raise.
Proof.
  destruct (main_body_first_read_fails float linspace_f64 400%float 700%float
              (sample_device 0) eq_refl eq_refl eq_refl eq_refl) as (_ & Hb & _).
  exact Hb.
Defined.

(** ** Opening the device *)

Lemma usb_core_find_some (bus : UsbBus) (vendor product : Z)
      (device : UsbDevice) :
  usb_core_find bus vendor product = Ok (Some device) ->
  exists devices,
    bus = Ok devices /\
    In device devices /\ idVendor device = vendor /\ idProduct device = product.
Proof.
  unfold usb_core_find. destruct bus as [devices|]; [| discriminate].
  cbn [obind]. intros Hf.
  assert (Hf' : find (fun dev => (idVendor dev =? vendor)
                                 && (idProduct dev =? product)) devices
                = Some device) by congruence.
  apply find_some in Hf'. destruct Hf' as [Hin Hm].
  apply andb_prop in Hm. destruct Hm as [Hv Hp].
  apply Z.eqb_eq in Hv. apply Z.eqb_eq in Hp.
  exists devices. auto.
Qed.

Lemma connect_found_calls (bus : UsbBus) (device : UsbDevice) :
  usb_core_find bus 0x2457 0x101E = Ok (Some device) ->
  exists calls, snd (connect_spectrometer bus) = IsKernelDriverActive 0 :: calls.
Proof.
  intros Hf. unfold connect_spectrometer. rewrite Hf.
  unfold is_kernel_driver_active, detach_kernel_driver, set_configuration,
    hbind, hcall, hret.
  destruct (driver_active device) as [[|]|];
    destruct (detach_ok device); destruct (configure_ok device);
    cbn; eexists; reflexivity.
Qed.

(** X14. [connect_spectrometer] raises without having made any call on
    a device exactly in two cases: [usb.core.find] itself raises, or it
    finds nothing, that is no attached device has both the vendor
    identifier 0x2457 and the product identifier 0x101E (a device
    matching only one of the two is not taken). *)
Theorem connect_spectrometer_not_found (bus : UsbBus) :
  connect_spectrometer bus = (Raise, []) <->
  (bus = Raise \/
   exists devices,
     bus = Ok devices /\
     forall dev, In dev devices ->
                 idVendor dev <> 0x2457 \/ idProduct dev <> 0x101E).
Proof.
  split.
  - intros Hc.
    destruct (usb_core_find bus 0x2457 0x101E) as [[device|]|] eqn:Hf.
    + destruct (connect_found_calls bus device Hf) as [calls Hcalls].
      rewrite Hc in Hcalls. discriminate Hcalls.
    + destruct bus as [devices|]; [| left; reflexivity].
      right. exists devices. split; [reflexivity |].
      intros dev Hin. unfold usb_core_find in Hf. cbn [obind] in Hf.
      assert (Hf' : find (fun dev => (idVendor dev =? 0x2457)
                                     && (idProduct dev =? 0x101E)) devices
                    = None) by congruence.
      pose proof (find_none _ _ Hf' dev Hin) as Hm. cbn beta in Hm.
      apply andb_false_iff in Hm. destruct Hm as [Hm | Hm];
        apply Z.eqb_neq in Hm; auto.
    + destruct bus as [devices|]; [discriminate Hf | left; reflexivity].
  - intros [-> | (devices & -> & Hno)]; [reflexivity |].
    unfold connect_spectrometer.
    destruct (usb_core_find (Ok devices) 0x2457 0x101E) as [[device|]|] eqn:Hf;
      [| reflexivity | reflexivity].
    apply usb_core_find_some in Hf.
    destruct Hf as (devices' & Hb & Hin & Hv & Hp).
    assert (devices' = devices) by congruence. subst devices'.
    destruct (Hno device Hin); contradiction.
Qed.

(** X15. A device returned by [connect_spectrometer] is an attached
    device with vendor 0x2457 and product 0x101E whose configuration was
    set, after its kernel driver was detached if and only if the driver
    was active; these are the only calls made and they are made in this
    order. *)
Theorem connect_spectrometer_success (bus : UsbBus) (device : UsbDevice) :
  fst (connect_spectrometer bus) = Ok device ->
  (exists devices, bus = Ok devices /\ In device devices) /\
  idVendor device = 0x2457 /\ idProduct device = 0x101E /\
  configure_ok device = true /\
  ((driver_active device = Ok false /\
    snd (connect_spectrometer bus) = [IsKernelDriverActive 0; SetConfiguration]) \/
   (driver_active device = Ok true /\ detach_ok device = true /\
    snd (connect_spectrometer bus)
    = [IsKernelDriverActive 0; DetachKernelDriver 0; SetConfiguration])).
Proof.
  unfold connect_spectrometer.
  destruct (usb_core_find bus 0x2457 0x101E) as [[found|]|] eqn:Hf;
    [| discriminate | discriminate].
  apply usb_core_find_some in Hf. destruct Hf as (devices & Hb & Hin & Hv & Hp).
  unfold is_kernel_driver_active, detach_kernel_driver, set_configuration,
    hbind, hcall, hret.
  destruct (driver_active found) as [[|]|] eqn:Hd;
    destruct (detach_ok found) eqn:Hdet;
    destruct (configure_ok found) eqn:Hcfg;
    cbn; intros Heq; try discriminate Heq;
    injection Heq as <-; rewrite Hd;
    (split; [exists devices; split; [exact Hb | exact Hin] |]);
    (split; [exact Hv |]); (split; [exact Hp |]);
    (split; [exact Hcfg |]); auto.
Qed.

Lemma connect_spectrometer_success_witness :
  snd (connect_spectrometer
         (Ok [mkUsbDevice 0x2457 0x1002 (Ok false) true true;
              mkUsbDevice 0x2457 0x101E (Ok true) true true]))
  = [IsKernelDriverActive 0; DetachKernelDriver 0; SetConfiguration].
Proof.
  destruct (connect_spectrometer_success
              (Ok [mkUsbDevice 0x2457 0x1002 (Ok false) true true;
                   mkUsbDevice 0x2457 0x101E (Ok true) true true])
              (mkUsbDevice 0x2457 0x101E (Ok true) true true) eq_refl)
    as (_ & _ & _ & _ & [[Hd _] | (_ & _ & Hc)]).
  - discriminate Hd.
  - exact Hc.
Defined.

(** ** From stream bytes to active pixels *)




(** ** The size of the selection, whatever the device does *)

Lemma main_acquire_raises (d : Device) :
  write_ok d (n_writes d) = false \/
  write_ok d (S (n_writes d)) = false \/
  write_ok d (S (S (n_writes d))) = false ->
  fst (main_acquire d) = Raise.
Proof.
  intros Hbad.
  destruct (write_ok d (n_writes d)) eqn:H0.
  - destruct (write_ok d (S (n_writes d))) eqn:H1.
    + destruct Hbad as [Hb | [Hb | Hb]]; try discriminate Hb.
      rewrite (main_acquire_refused d 2); [reflexivity | lia | |].
      * intros j Hj. destruct j as [|[|j]]; [| | lia].
        -- rewrite Nat.add_0_r. exact H0.
        -- rewrite Nat.add_1_r. exact H1.
      * replace (n_writes d + 2)%nat with (S (S (n_writes d))) by lia. exact Hb.
    + rewrite (main_acquire_refused d 1); [reflexivity | lia | |].
      * intros j Hj. destruct j as [|j]; [| lia].
        rewrite Nat.add_0_r. exact H0.
      * rewrite Nat.add_1_r. exact H1.
  - rewrite (main_acquire_refused d 0); [reflexivity | lia | |].
    + intros j Hj. lia.
    + rewrite Nat.add_0_r. exact H0.
Qed.

(** X17. Whatever the device answers (any number of bytes per read, any
    failure), a selection returned by the acquisition sequence of [main]
    never has more than 2028 pixels, and the sequence returns one
    exactly when the three command writes are accepted. *)
Theorem main_acquire_at_most_2028 (d : Device) :
  (forall active_pixels,
     fst (main_acquire d) = Ok active_pixels -> Py.len active_pixels <= 2028) /\
  ((exists active_pixels, fst (main_acquire d) = Ok active_pixels) <->
   write_ok d (n_writes d) = true /\
   write_ok d (S (n_writes d)) = true /\
   write_ok d (S (S (n_writes d))) = true).
Proof.
  destruct (write_ok d (n_writes d)) eqn:H0;
    [destruct (write_ok d (S (n_writes d))) eqn:H1;
     [destruct (write_ok d (S (S (n_writes d)))) eqn:H2 |] |].
  - pose proof (main_acquire_run d H0 H1 H2) as Hrun. split.
    + intros ap Hap. rewrite Hrun in Hap. cbn [fst] in Hap.
      assert (Heq : ap = Py.slice (pairs (concat (received (read_reply d)
                                                   (n_reads d) 8))) 20 2048)
        by congruence.
      rewrite Heq, slice_20_2048_len. lia.
    + split; [auto |]. intros _. eexists. rewrite Hrun. reflexivity.
  - assert (Hr : fst (main_acquire d) = Raise)
      by (apply main_acquire_raises; auto).
    rewrite Hr. split; [discriminate |].
    split; [intros [ap Hap]; discriminate Hap | intros (_ & _ & Hf); discriminate Hf].
  - assert (Hr : fst (main_acquire d) = Raise)
      by (apply main_acquire_raises; auto).
    rewrite Hr. split; [discriminate |].
    split; [intros [ap Hap]; discriminate Hap | intros (_ & Hf & _); discriminate Hf].
  - assert (Hr : fst (main_acquire d) = Raise)
      by (apply main_acquire_raises; auto).
    rewrite Hr. split; [discriminate |].
    split; [intros [ap Hap]; discriminate Hap | intros (Hf & _); discriminate Hf].
Qed.

Lemma main_acquire_at_most_2028_witness :
  fst (main_acquire (sample_device 8)) = Ok [256; 1; 255; 256] /\
  Py.len [256; 1; 255; 256] <= 2028.
Proof.
  assert (Hrun : fst (main_acquire (sample_device 8)) = Ok [256; 1; 255; 256])
    by reflexivity.
  split; [exact Hrun |].
  exact (proj1 (main_acquire_at_most_2028 (sample_device 8)) _ Hrun).
Defined.

(** ** The wavelengths on IEEE doubles *)















